(** * The session service of the LangChain / Chainlit chatbot

    A shallow embedding of [langchain_chainlit.py]: the event loop of
    [ChatbotService.process_message], the index builders
    [_create_rag_retriever] and [_create_temp_retriever_from_files], the
    factory [create_chatbot_service] and the two Chainlit handlers.

    Python values are embedded as the code observes them, effects (chat
    messages, log records, the file system) are threaded through a small
    state-and-exception monad, and the two library calls whose result the
    code cannot compute itself (document loaders, the agent's event stream)
    are section variables, as is the text splitter.

    Scope of the model.  An exception is an instance of [Exception], given
    by its class and its message.  The library calls raise where the
    libraries do: a loader's [load], the iterator of the agent, the binary
    write of a [str], the PDF loader built on a path that is no file, the
    vector store given no chunk, and [Message.update] given a content.
    Sending a message, logging, creating or removing a file and embedding
    the chunks do not fail. *)

From Stdlib Require Import String Ascii List Bool Arith Lia Strings.Byte.
From stdpp Require Import base tactics option list strings pretty gmap fin_maps.

Set Warnings "-register-all".

Local Open Scope string_scope.
Local Open Scope list_scope.

(** ** Python values *)

(** The values that travel in an event.  [None] and [str] are kept as they
    are.  Any other object is described by what the program can observe of
    it: its class, its items or attributes, its truth value and the text
    [str()] gives for it ([shown]).  A [dict] has [get] and [in]; an
    [AgentAction] has [tool] and [tool_input]; an [AgentFinish] has
    [return_values]; an object of any other class ([PyObject]) has the
    listed attributes and nothing else. *)
Inductive pyval : Type :=
| PyNone
| PyStr (s : string)
| PyDict (items : list (string * pyval)) (shown : string)
| PyAgentAction (tool : string) (tool_input : pyval) (shown : string)
| PyAgentFinish (return_values : list (string * pyval)) (shown : string)
| PyObject (cls : string) (attrs : list (string * pyval)) (truthy : bool)
           (shown : string).

(** A dict with string keys, in the order of its literal. *)
Abbreviation pydict := (list (string * pyval)).

(** [k in d] and [d.get(k)] *)
Fixpoint dict_get {V : Type} (d : list (string * V)) (k : string) : option V :=
  match d with
  | [] => None
  | (k', v) :: d' => if String.eqb k' k then Some v else dict_get d' k
  end.

(** [d.get(k, default)] *)
Definition dict_get_default {V : Type} (d : list (string * V)) (k : string)
    (default : V) : V :=
  match dict_get d k with Some v => v | None => default end.

(** The empty dict literal [{}]. *)
Definition empty_dict : pyval := PyDict [] "{}".

(** [bool(v)] *)
Definition py_truthy (v : pyval) : bool :=
  match v with
  | PyNone => false
  | PyStr s => negb (String.eqb s "")
  | PyDict items _ => match items with [] => false | _ => true end
  | PyAgentAction _ _ _ => true
  | PyAgentFinish _ _ => true
  | PyObject _ _ t _ => t
  end.

(** [str(v)], also what an f-string interpolates. *)
Definition py_str (v : pyval) : string :=
  match v with
  | PyNone => "None"
  | PyStr s => s
  | PyDict _ shown => shown
  | PyAgentAction _ _ shown => shown
  | PyAgentFinish _ shown => shown
  | PyObject _ _ _ shown => shown
  end.

(** [type(v).__name__] *)
Definition py_type_name (v : pyval) : string :=
  match v with
  | PyNone => "NoneType"
  | PyStr _ => "str"
  | PyDict _ _ => "dict"
  | PyAgentAction _ _ _ => "AgentAction"
  | PyAgentFinish _ _ => "AgentFinish"
  | PyObject cls _ _ _ => cls
  end.

(** [hasattr(v, "content")] and [v.content]: only objects of other classes
    can carry the attribute. *)
Definition py_content_attr (v : pyval) : option pyval :=
  match v with
  | PyObject _ attrs _ _ => dict_get attrs "content"
  | _ => None
  end.

(** ** Exceptions *)

Inductive exn_class : Type :=
| FileNotFoundError
| ValueError
| AttributeError
| TypeError
| OtherError (name : string).

(** An instance of [Exception]: its class and [str(e)]. *)
Record exn : Type := Exn { exn_cls : exn_class; exn_msg : string }.

Definition is_FileNotFoundError (e : exn) : bool :=
  match exn_cls e with FileNotFoundError => true | _ => false end.

(** [v.get] on something that is not a dict. *)
Definition no_get_attribute (v : pyval) : exn :=
  Exn AttributeError
      ("'" +:+ py_type_name v +:+ "' object has no attribute 'get'").

Definition dquote : string := String (ascii_of_nat 34) "".

(** [streamed_response += content] with a [content] that is not a [str]. *)
Definition cannot_concatenate (v : pyval) : exn :=
  Exn TypeError
      ("can only concatenate str (not " +:+ dquote +:+ py_type_name v
         +:+ dquote +:+ ") to str").

(** ** Documents, retrievers, tools, uploaded files *)

Record Document : Type :=
  { page_content : string; metadata_source : string }.

Inductive OpenAIEmbeddings : Type := mkOpenAIEmbeddings.

Inductive ChatOpenAI : Type := mkChatOpenAI (model : string) (streaming : bool).

(** [FAISS.from_documents(split_docs, embeddings).as_retriever()], kept as
    the record of what it indexes: the chunks and the embedding handle. *)
Inductive BaseRetriever : Type :=
| FaissRetriever (split_docs : list Document) (embeddings : OpenAIEmbeddings).

Record Tool : Type :=
  { tool_name : string; tool_description : string; tool_func : BaseRetriever }.

(** The content a [cl.File] holds in memory: [bytes], or a [str]. *)
Inductive file_data : Type :=
| Bytes (b : list byte)
| Text (s : string).

(** [cl.File]: a name, an optional path on disk, optional content in
    memory. *)
Record File : Type :=
  { file_name : string;
    file_path : option string;
    file_content : option file_data }.

Inductive loader_kind : Type := PyPDFLoader | CSVLoader | TextLoader.

(** ** Effects: chat messages, log records, the file system *)

Inductive ui_op : Type :=
| UiSend (author : option string) (content : pyval)  (* cl.Message(...).send() *)
| UiUpdate (content : pyval)                         (* msg.update(content=...) *)
| UiRemove.                                          (* msg.remove() *)

Inductive level : Type := DEBUG | INFO | WARNING | ERROR.

(** One constructor per [logging] call of the source. *)
Inductive log_msg : Type :=
| LogAgentStart
| LogUserInput (user_message : string)
| LogNewFiles (n : nat)
| LogUnknownStructure (event : pydict)
| LogToolChosen (tool : string)
| LogToolInput (tool_input : pyval)
| LogStreamChunk (content : string)
| LogFinalAnswer (answer : pyval)
| LogAgentError (e : exn)
| LogNoKnowledgeBase (e : exn)
| LogLoadingFolder (folder : string) (n : nat)
| LogReadError (path : string) (e : exn)
| LogNoPathNoContent (name : string)
| LogLoaderError (loader : loader_kind) (name : string) (e : exn)
| LogTempDeleted (path : string)
| LogInitError (e : exn).

Record effects : Type :=
  { ui : list ui_op;
    log : list (level * log_msg);
    fs : gmap string (list byte) }.

(** Both traces are in the order of the calls. *)
Definition add_ui (op : ui_op) (w : effects) : effects :=
  {| ui := ui w ++ [op]; log := log w; fs := fs w |}.

Definition add_log (l : level) (m : log_msg) (w : effects) : effects :=
  {| ui := ui w; log := log w ++ [(l, m)]; fs := fs w |}.

Definition set_fs (f : gmap string (list byte)) (w : effects) : effects :=
  {| ui := ui w; log := log w; fs := f |}.

(** ** The monad: state passing with exceptions *)

Inductive outcome (A : Type) : Type :=
| Ok (a : A)
| Raise (e : exn).
Arguments Ok {A} a.
Arguments Raise {A} e.

(** A computation over a state of type [S] keeps the changes it made
    before it raised. *)
Definition ST (S A : Type) : Type := S -> outcome A * S.

Definition ret {S A : Type} (a : A) : ST S A := fun s => (Ok a, s).

Definition raise {S A : Type} (e : exn) : ST S A := fun s => (Raise e, s).

Definition bind {S A B : Type} (m : ST S A) (k : A -> ST S B) : ST S B :=
  fun s =>
    match m s with
    | (Ok a, s') => k a s'
    | (Raise e, s') => (Raise e, s')
    end.

Notation "'let*' x ':=' m 'in' k" := (bind m (fun x => k))
  (at level 10, x pattern, m at level 200, k at level 200).

(** [try: body  except Exception as e: handler(e)] *)
Definition try_except {S A : Type} (body : ST S A) (handler : exn -> ST S A)
    : ST S A :=
  fun s =>
    match body s with
    | (Ok a, s') => (Ok a, s')
    | (Raise e, s') => handler e s'
    end.

(** [try: body  except FileNotFoundError as e: handler(e)] *)
Definition try_except_FileNotFoundError {S A : Type} (body : ST S A)
    (handler : exn -> ST S A) : ST S A :=
  fun s =>
    match body s with
    | (Ok a, s') => (Ok a, s')
    | (Raise e, s') =>
        if is_FileNotFoundError e then handler e s' else (Raise e, s')
    end.

(** [try: body  finally: cleanup]: the cleanup runs on every exit of the
    body, and the body's result or exception is what leaves the block. *)
Definition try_finally {S A : Type} (body : ST S A) (cleanup : ST S unit)
    : ST S A :=
  fun s =>
    match body s with
    | (r, s') =>
        match cleanup s' with
        | (Ok _, s'') => (r, s'')
        | (Raise e, s'') => (Raise e, s'')
        end
    end.

(** The computations of this program run over [effects]. *)
Abbreviation M := (ST effects).

(** A function with local variables of type [L] runs over both. *)
Definition lift {L A : Type} (m : M A) : ST (L * effects) A :=
  fun s =>
    match m (snd s) with
    | (r, w') => (r, (fst s, w'))
    end.

Definition get_locals {L : Type} : ST (L * effects) L :=
  fun s => (Ok (fst s), s).

Definition set_locals {L : Type} (l : L) : ST (L * effects) unit :=
  fun s => (Ok tt, (l, snd s)).

(** Calling the function: fresh locals, dropped when it exits. *)
Definition with_locals {L A : Type} (init : L) (m : ST (L * effects) A) : M A :=
  fun w =>
    match m (init, w) with
    | (r, s') => (r, snd s')
    end.

(** [await cl.Message(content=..., author=...).send()] *)
Definition send (author : option string) (content : pyval) : M unit :=
  fun w => (Ok tt, add_ui (UiSend author content) w).

(** [Message.update] takes no argument: a call with [content=...], as on
    line 165, raises before anything reaches the chat. *)
Definition update_rejected : exn :=
  Exn TypeError
      "Message.update() got an unexpected keyword argument 'content'".

(** [await msg.update(content=...)] *)
Definition update_msg (content : pyval) : M unit := raise update_rejected.

Definition remove_msg : M unit :=
  fun w => (Ok tt, add_ui UiRemove w).

Definition logging (l : level) (m : log_msg) : M unit :=
  fun w => (Ok tt, add_log l m w).

(** ** The event loop of [process_message] (lines 99-154) *)

(** An event of [astream_events] is a dict. *)
Abbreviation event := (list (string * pyval)).

(** The two locals the loop updates. *)
Record loop_state : Type :=
  { streamed_response : string; final_answer : pyval }.

Definition loop_start : loop_state :=
  {| streamed_response := ""; final_answer := PyStr "" |}.

(** [kind == "literal"] *)
Definition py_eq_str (v : pyval) (s : string) : bool :=
  match v with PyStr k => String.eqb k s | _ => false end.

(** [data.get(key, default)]; [AttributeError] when [data] is not a dict. *)
Definition data_get (data : pyval) (key : string) (default : pyval) : M pyval :=
  match data with
  | PyDict items _ => ret (dict_get_default items key default)
  | _ => raise (no_get_attribute data)
  end.

Definition system_author : option string := Some "系統".

(** Lines 115-124: the body under [on_agent_action]. *)
Definition on_action (data : pyval) (st : loop_state) : M loop_state :=
  let* action := data_get data "action" PyNone in
  match action with
  | PyAgentAction tool tool_input _ =>
      let* _ := logging INFO (LogToolChosen tool) in
      let* _ := logging DEBUG (LogToolInput tool_input) in
      let* _ := send system_author
        (PyStr ("&nbsp;&nbsp;➤ 正在使用工具: `" +:+ tool
                  +:+ "` 來查找資料。")) in
      ret st
  | _ => ret st
  end.

(** Lines 127-131: the body under [on_tool_start]. *)
Definition on_tool_start (data : pyval) (event : event) (st : loop_state)
    : M loop_state :=
  let* fallback := data_get data "name" (PyStr "未知工具") in
  let tool_name := dict_get_default event "name" fallback in
  let* _ := send system_author
    (PyStr ("&nbsp;&nbsp;⟳ 開始使用工具: `" +:+ py_str tool_name
              +:+ "` 來查找資料。")) in
  ret st.

(** Lines 134-138: the body under [on_tool_end]. *)
Definition on_tool_end (data : pyval) (event : event) (st : loop_state)
    : M loop_state :=
  let* fallback := data_get data "name" (PyStr "未知工具") in
  let tool_name := dict_get_default event "name" fallback in
  let* _ := send system_author
    (PyStr ("&nbsp;&nbsp;✓ 工具 `" +:+ py_str tool_name
              +:+ "` 執行完畢。")) in
  ret st.

(** Lines 141-146: the body under [on_chat_model_stream]. *)
Definition on_token (data : pyval) (st : loop_state) : M loop_state :=
  let* chunk := data_get data "chunk" empty_dict in
  let content :=
    match py_content_attr chunk with
    | Some c => c
    | None => PyStr (py_str chunk)
    end in
  if py_truthy content then
    match content with
    | PyStr c =>
        let st' := {| streamed_response := streamed_response st +:+ c;
                      final_answer := final_answer st |} in
        let* _ := logging DEBUG (LogStreamChunk c) in
        ret st'
    | _ => raise (cannot_concatenate content)
    end
  else ret st.

(** Lines 149-154: the body under [on_agent_finish]. *)
Definition on_finish (data : pyval) (st : loop_state) : M loop_state :=
  let* agent_finish_event := data_get data "output" PyNone in
  match agent_finish_event with
  | PyAgentFinish return_values _ =>
      let answer := dict_get_default return_values "output" PyNone in
      if py_truthy answer then
        let st' := {| streamed_response := streamed_response st;
                      final_answer := answer |} in
        let* _ := logging INFO (LogFinalAnswer answer) in
        ret st'
      else ret st
  | _ => ret st
  end.

(** Lines 114-154: the [if]/[elif] chain on [kind]; it has no [else]. *)
Definition dispatch (kind data : pyval) (event : event) (st : loop_state)
    : M loop_state :=
  if py_eq_str kind "on_agent_action" || py_eq_str kind "agent_action"
  then on_action data st
  else if py_eq_str kind "on_tool_start" || py_eq_str kind "tool_start"
  then on_tool_start data event st
  else if py_eq_str kind "on_tool_end" || py_eq_str kind "tool_end"
  then on_tool_end data event st
  else if py_eq_str kind "on_chat_model_stream" || py_eq_str kind "llm_chunk"
  then on_token data st
  else if py_eq_str kind "on_agent_finish" || py_eq_str kind "agent_finish"
  then on_finish data st
  else ret st.

(** Lines 103-112: the kind is read under ["event"], else under
    ["event_type"]; an event with neither is logged and skipped. *)
Definition handle_event (event : event) (st : loop_state) : M loop_state :=
  match dict_get event "event" with
  | Some kind => dispatch kind (dict_get_default event "data" empty_dict) event st
  | None =>
      match dict_get event "event_type" with
      | Some kind =>
          dispatch kind (dict_get_default event "data" empty_dict) event st
      | None =>
          let* _ := logging WARNING (LogUnknownStructure event) in
          ret st
      end
  end.

(** [async for event in ...]: the events in arrival order. *)
Fixpoint consume_events (events : list event) (st : loop_state) : M loop_state :=
  match events with
  | [] => ret st
  | event :: rest =>
      let* st' := handle_event event st in
      consume_events rest st'
  end.

(** What one run of [astream_events] yields: the events it produced and,
    when the run broke off, the exception the iterator raised after them. *)
Record event_stream : Type :=
  { stream_events : list event; stream_error : option exn }.

Definition run_stream (s : event_stream) (st : loop_state) : M loop_state :=
  let* st' := consume_events (stream_events s) st in
  match stream_error s with
  | None => ret st'
  | Some e => raise e
  end.

(** Line 157: [final_answer if final_answer else streamed_response]. *)
Definition full_response_of (st : loop_state) : pyval :=
  if py_truthy (final_answer st) then final_answer st
  else PyStr (streamed_response st).

(** ** Strings, paths and the file system *)

(** [s.endswith(suffix)] *)
Definition endswith (s suffix : string) : bool :=
  let n := String.length s in
  let m := String.length suffix in
  Nat.leb m n && String.eqb (substring (n - m) m s) suffix.

(** [s.rfind(c)] *)
Fixpoint last_index (c : ascii) (s : string) : option nat :=
  match s with
  | EmptyString => None
  | String a s' =>
      match last_index c s' with
      | Some i => Some (S i)
      | None => if Ascii.eqb a c then Some 0 else None
      end
  end.

Fixpoint all_dots (s : string) : bool :=
  match s with
  | EmptyString => true
  | String a s' => Ascii.eqb a "." && all_dots s'
  end.

(** [os.path.splitext(p)[1]] (posixpath): the extension starts at the last
    dot of the last path component, unless only dots precede it there. *)
Definition splitext_ext (p : string) : string :=
  let start := match last_index "/" p with Some i => S i | None => 0 end in
  match last_index "." p with
  | None => ""
  | Some d =>
      if Nat.ltb start d && negb (all_dots (substring start (d - start) p))
      then substring d (String.length p - d) p
      else ""
  end.

Fixpoint underscores (n : nat) : string :=
  match n with
  | 0 => ""
  | S n' => String "_" (underscores n')
  end.

Definition longest_path (f : gmap string (list byte)) : nat :=
  foldr (fun kv n => Nat.max (String.length (fst kv)) n) 0 (map_to_list f).

(** The name [tempfile.NamedTemporaryFile] picks: in the temporary
    directory, ending in [suffix], and not in use.  The library draws it at
    random; the model takes one longer than every path in use. *)
Definition temp_name (f : gmap string (list byte)) (suffix : string) : string :=
  "/tmp/tmp" +:+ underscores (S (longest_path f)) +:+ suffix.

(** [tempfile.NamedTemporaryFile(delete=False, suffix=suffix)]: the file
    is created, empty, and stays when the [with] block is left. *)
Definition named_temporary_file (suffix : string) : M string :=
  fun w =>
    let name := temp_name (fs w) suffix in
    (Ok name, set_fs (<[name := []]> (fs w)) w).

Definition not_bytes : exn :=
  Exn TypeError "a bytes-like object is required, not 'str'".

(** [temp_file.write(content)] on a file opened in binary mode. *)
Definition write_temporary_file (name : string) (content : file_data)
    : M unit :=
  fun w =>
    match content with
    | Bytes b => (Ok tt, set_fs (<[name := b]> (fs w)) w)
    | Text _ => (Raise not_bytes, w)
    end.

(** [os.path.exists(path)] *)
Definition path_exists (path : string) : M bool :=
  fun w => (Ok (bool_decide (is_Some (fs w !! path))), w).

(** [os.unlink(path)] *)
Definition unlink (path : string) : M unit :=
  fun w => (Ok tt, set_fs (delete path (fs w)) w).

(** [glob.glob(f"{data_folder}*.txt")]: the files directly in the folder
    whose name ends in [.txt] and does not start with a dot. *)
Definition matches_txt (data_folder path : string) : bool :=
  let n := String.length data_folder in
  let name := substring n (String.length path - n) path in
  String.prefix data_folder path
  && negb (bool_decide (is_Some (String.index 0 "/" name)))
  && negb (String.prefix "." name)
  && endswith name ".txt".

Definition glob_txt (data_folder : string) : M (list string) :=
  fun w =>
    (Ok (List.filter (matches_txt data_folder) (map fst (map_to_list (fs w)))),
     w).

(** [if file.path:] a path counts when it is set and not empty. *)
Definition str_truthy (o : option string) : bool :=
  match o with
  | Some s => negb (String.eqb s "")
  | None => false
  end.

(** Lines 248-250: the loader is chosen by the name, not by the path. *)
Definition loader_for (name : string) : loader_kind :=
  if endswith name ".pdf" then PyPDFLoader
  else if endswith name ".csv" then CSVLoader
  else TextLoader.

Definition not_a_file (path : string) : exn :=
  Exn ValueError ("File path " +:+ path +:+ " is not a valid file or url").

(** What building a loader on a local path raises: [PyPDFLoader] checks
    that the path is a file, the two others only keep the path. *)
Definition loader_error (loader : loader_kind) (path : string)
    (f : gmap string (list byte)) : option exn :=
  match loader, f !! path with
  | PyPDFLoader, None => Some (not_a_file path)
  | _, _ => None
  end.

(** [loader = Loader(path)] *)
Definition new_loader (loader : loader_kind) (path : string) : M unit :=
  fun w =>
    match loader_error loader path (fs w) with
    | Some e => (Raise e, w)
    | None => (Ok tt, w)
    end.

Definition RAG_DATA_FOLDER : string := "rag_data/".
Definition LLM_MODEL_NAME : string := "gpt-4o-mini".

Record ChatbotService : Type :=
  { llm : ChatOpenAI;
    embeddings : OpenAIEmbeddings;
    base_retriever : option BaseRetriever;
    chat_history : list (string * pyval) }.

(** [ChatbotService.__init__] *)
Definition new_ChatbotService (l : ChatOpenAI) (e : OpenAIEmbeddings)
    (r : option BaseRetriever) : ChatbotService :=
  {| llm := l; embeddings := e; base_retriever := r; chat_history := [] |}.

Definition _get_rag_tool (retriever : BaseRetriever) (name description : string)
    : Tool :=
  {| tool_name := name; tool_description := description;
     tool_func := retriever |}.

(** [AgentExecutor(agent=create_tool_calling_agent(llm, tools, prompt),
    tools=tools)]; the prompt is a constant of the source. *)
Record AgentExecutor : Type :=
  { agent_llm : ChatOpenAI; agent_tools : list Tool }.

Definition _create_agent_executor (l : ChatOpenAI) (tools : list Tool)
    : AgentExecutor :=
  {| agent_llm := l; agent_tools := tools |}.

(** [FAISS.from_documents] on an empty list of chunks. *)
Definition no_chunk : exn :=
  Exn (OtherError "IndexError") "list index out of range".

Definition no_uploaded_content : exn :=
  Exn ValueError "無法從上傳的檔案中讀取任何可處理的內容。".

Definition no_txt_files (data_folder : string) : exn :=
  Exn FileNotFoundError
      ("在資料夾 '" +:+ data_folder +:+ "' 中找不到任何 .txt 檔案。").

Definition no_preloaded_content (data_folder : string) : exn :=
  Exn ValueError ("無法從 " +:+ data_folder +:+ " 中的檔案載入任何內容。").

Definition apology : string := "抱歉，我無法生成回答。".

Section Service.

(** [loader.load()] for a loader of the given class on a path: a library
    call that reads the file ([None] when there is no such file) and
    returns documents or raises. *)
Variable load_documents :
  loader_kind -> string -> option (list byte) -> outcome (list Document).

(** [agent_executor.astream_events({"input": ..., "chat_history": ...},
    version="v1")]: what the agent, driven by the remote model, yields. *)
Variable astream_events :
  AgentExecutor -> string -> list (string * pyval) -> event_stream.

(** [RecursiveCharacterTextSplitter(chunk_size, chunk_overlap)
    .split_documents(docs)]: the chunks of the documents. *)
Variable split_documents : nat -> nat -> list Document -> list Document.

(** Lines 258-261 and 222-225: split, then index; the vector store raises
    when there is no chunk. *)
Definition build_retriever (docs : list Document) (e : OpenAIEmbeddings)
    : M BaseRetriever :=
  match split_documents 1000 100 docs with
  | [] => raise no_chunk
  | split_docs => ret (FaissRetriever split_docs e)
  end.

(** [loader.load()] on the current file system. *)
Definition load_path (loader : loader_kind) (path : string)
    : M (list Document) :=
  fun w => (load_documents loader path (fs w !! path), w).

(** *** [_create_temp_retriever_from_files] (lines 227-266) *)

Record builder_locals : Type :=
  { documents : list Document; temp_files_to_delete : list string }.

Abbreviation B := (ST (builder_locals * effects)).

(** Lines 235-255: one turn of [for file in files]. *)
Definition load_uploaded_file (file : File) : B unit :=
  let* actual_file_path :=
    if str_truthy (file_path file) then ret (file_path file)
    else
      match file_content file with
      | Some content =>
          let* name :=
            lift (named_temporary_file (splitext_ext (file_name file))) in
          let* _ := lift (write_temporary_file name content) in
          let* l := get_locals in
          let* _ := set_locals
            {| documents := documents l;
               temp_files_to_delete := temp_files_to_delete l ++ [name] |} in
          ret (Some name)
      | None => ret None
      end in
  match actual_file_path with
  | Some path =>
      if str_truthy actual_file_path then
        let loader := loader_for (file_name file) in
        let* _ := lift (new_loader loader path) in
        try_except
          (let* docs := lift (load_path loader path) in
           let* l := get_locals in
           set_locals
             {| documents := documents l ++ docs;
                temp_files_to_delete := temp_files_to_delete l |})
          (fun e =>
             let* _ := lift (logging ERROR
                           (LogLoaderError loader (file_name file) e)) in
             lift (send None
                     (PyStr ("處理檔案 `" +:+ file_name file
                               +:+ "` 時出錯，已略過。原因: " +:+ exn_msg e))))
      else lift (logging WARNING (LogNoPathNoContent (file_name file)))
  | None => lift (logging WARNING (LogNoPathNoContent (file_name file)))
  end.

Fixpoint load_uploaded_files (files : list File) : B unit :=
  match files with
  | [] => ret tt
  | file :: rest =>
      let* _ := load_uploaded_file file in
      load_uploaded_files rest
  end.

(** Lines 263-266: the [finally] block. *)
Fixpoint delete_temp_files (paths : list string) : M unit :=
  match paths with
  | [] => ret tt
  | path :: rest =>
      let* there := path_exists path in
      let* _ :=
        if there : bool then
          let* _ := unlink path in
          logging DEBUG (LogTempDeleted path)
        else ret tt in
      delete_temp_files rest
  end.

Definition _create_temp_retriever_from_files (files : list File)
    (e : OpenAIEmbeddings) : M BaseRetriever :=
  with_locals {| documents := []; temp_files_to_delete := [] |}
    (try_finally
       (let* _ := load_uploaded_files files in
        let* l := get_locals in
        match documents l with
        | [] => raise no_uploaded_content
        | _ => lift (build_retriever (documents l) e)
        end)
       (let* l := get_locals in
        lift (delete_temp_files (temp_files_to_delete l)))).

(** *** [_create_rag_retriever] (lines 204-225) *)

Fixpoint load_text_files (paths : list string) (all_docs : list Document)
    : M (list Document) :=
  match paths with
  | [] => ret all_docs
  | path :: rest =>
      let* all_docs' :=
        try_except
          (let* _ := new_loader TextLoader path in
           let* docs := load_path TextLoader path in
           ret (all_docs ++ docs))
          (fun e =>
             let* _ := logging WARNING (LogReadError path e) in
             ret all_docs) in
      load_text_files rest all_docs'
  end.

Definition _create_rag_retriever (data_folder : string) (e : OpenAIEmbeddings)
    : M BaseRetriever :=
  let* file_paths := glob_txt data_folder in
  match file_paths with
  | [] => raise (no_txt_files data_folder)
  | _ =>
      let* _ := logging INFO
                  (LogLoadingFolder data_folder (length file_paths)) in
      let* all_docs := load_text_files file_paths [] in
      match all_docs with
      | [] => raise (no_preloaded_content data_folder)
      | _ => build_retriever all_docs e
      end
  end.

(** *** [create_chatbot_service] (lines 186-199) *)

Definition create_chatbot_service : M ChatbotService :=
  let l := mkChatOpenAI LLM_MODEL_NAME true in
  let e := mkOpenAIEmbeddings in
  let* base :=
    try_except_FileNotFoundError
      (let* r := _create_rag_retriever RAG_DATA_FOLDER e in
       ret (Some r))
      (fun err =>
         let* _ := logging WARNING (LogNoKnowledgeBase err) in
         ret None) in
  ret (new_ChatbotService l e base).

(** *** [ChatbotService.process_message] (lines 56-183) *)

Definition preloaded_tool (r : BaseRetriever) : Tool :=
  _get_rag_tool r "preloaded_document_retriever"
    "當你需要回答關於預載的背景知識（如故事、設定）的問題時，請使用這個工具。".

Definition uploaded_tool (r : BaseRetriever) : Tool :=
  _get_rag_tool r "uploaded_file_retriever"
    "當你需要回答關於使用者剛剛上傳的檔案內容的問題時，請優先使用這個工具。".

(** Lines 69-87; [if new_files:] holds for a list that is not empty. *)
Definition assemble_tools (self : ChatbotService)
    (new_files : option (list File)) : M (list Tool) :=
  let tools :=
    match base_retriever self with
    | Some r => [preloaded_tool r]
    | None => []
    end in
  match new_files with
  | Some (f :: fs') =>
      let files := f :: fs' in
      let* _ := logging INFO (LogNewFiles (length files)) in
      let* _ := send (Some "處理中")
        (PyStr ("正在為您上傳的 " +:+ pretty (length files)
                  +:+ " 個檔案建立索引...")) in
      let* temp_retriever :=
        _create_temp_retriever_from_files files (embeddings self) in
      ret (tools ++ [uploaded_tool temp_retriever])
  | _ => ret tools
  end.

(** Lines 68-165: the body of the [try]; its value is [full_response]. *)
Definition turn_body (self : ChatbotService) (user_message : string)
    (new_files : option (list File)) : M pyval :=
  let* tools := assemble_tools self new_files in
  let agent_executor := _create_agent_executor (llm self) tools in
  let* _ := send None (PyStr "") in
  let* st :=
    run_stream (astream_events agent_executor user_message (chat_history self))
               loop_start in
  let full_response := full_response_of st in
  let* _ :=
    if py_truthy full_response then
      let* _ := send None full_response in
      remove_msg
    else update_msg (PyStr apology) in
  ret full_response.

(** Lines 167-175: the [except Exception] block. *)
Definition turn_failed (e : exn) : M pyval :=
  let* _ := logging ERROR (LogAgentError e) in
  let* _ := send None (PyStr ("處理您的問題時發生錯誤: " +:+ exn_msg e)) in
  let* _ := try_except remove_msg (fun _ => ret tt) in
  ret (PyStr "").

(** The method returns [full_response]; [self] is returned with it, with
    [chat_history] as the call left it. *)
Definition process_message (self : ChatbotService) (user_message : string)
    (new_files : option (list File)) : M (pyval * ChatbotService) :=
  let* _ := logging DEBUG LogAgentStart in
  let* _ := logging DEBUG (LogUserInput user_message) in
  let* full_response :=
    try_except (turn_body self user_message new_files) turn_failed in
  if py_truthy full_response then
    ret (full_response,
         {| llm := llm self; embeddings := embeddings self;
            base_retriever := base_retriever self;
            chat_history :=
              chat_history self
                ++ [("human", PyStr user_message); ("ai", full_response)] |})
  else ret (full_response, self).

(** *** The Chainlit handlers (lines 323-350) *)

Definition greeting : string :=
  "你好！我已經讀取了 '" +:+ RAG_DATA_FOLDER
    +:+ "' 資料夾中的知識，現在你可以問我關於這些文件的問題了。也歡迎上傳檔案來提問！".

Definition not_ready : string := "系統尚未準備好，請重新整理頁面。".

(** [cl.user_session]: the value stored under ["chatbot_service"]. *)
Abbreviation session := (option ChatbotService).

Definition start_chat (sess : session) : M session :=
  try_except
    (let* chatbot_service := create_chatbot_service in
     let* _ := send None (PyStr greeting) in
     ret (Some chatbot_service))
    (fun e =>
       let* _ := logging ERROR (LogInitError e) in
       let* _ := send None
         (PyStr ("初始化時發生嚴重錯誤，請檢查 Log: " +:+ exn_msg e)) in
       ret sess).

Definition on_message (sess : session) (content : string)
    (elements : list File) : M session :=
  match sess with
  | None =>
      let* _ := send None (PyStr not_ready) in
      ret None
  | Some chatbot_service =>
      let* r := process_message chatbot_service content (Some elements) in
      ret (Some (snd r))
  end.

(** Several turns of one session, in order; the results of the turns. *)
Fixpoint run_turns (self : ChatbotService)
    (turns : list (string * option (list File)))
    : M (list pyval * ChatbotService) :=
  match turns with
  | [] => ret ([], self)
  | (user_message, new_files) :: rest =>
      let* r := process_message self user_message new_files in
      let* rs := run_turns (snd r) rest in
      ret (fst r :: fst rs, snd rs)
  end.

(** *** The uploaded batch, file by file

    What loading one uploaded file comes to on a given file system: the
    file has no source, or its loader returned documents, or its loader
    raised in [load], or something raised outside the [try] of line 252
    (the write of line 240, the loader built on lines 248-250) and the
    batch stops there. *)
Inductive attempt : Type :=
| NoSource
| Loaded (docs : list Document)
| Failed (e : exn)
| Aborted (e : exn).

Definition attempt_load (name path : string) (f : gmap string (list byte))
    : attempt :=
  match loader_error (loader_for name) path f with
  | Some e => Aborted e
  | None =>
      match load_documents (loader_for name) path (f !! path) with
      | Ok docs => Loaded docs
      | Raise e => Failed e
      end
  end.

(** The attempt for one file, and the file system it leaves while the
    batch is being read. *)
Definition attempt_of (file : File) (f : gmap string (list byte))
    : attempt * gmap string (list byte) :=
  let name := temp_name f (splitext_ext (file_name file)) in
  match (if str_truthy (file_path file) then file_path file else None),
        file_content file with
  | Some path, _ => (attempt_load (file_name file) path f, f)
  | None, Some (Bytes b) =>
      let f' := <[name := b]> (<[name := []]> f) in
      (attempt_load (file_name file) name f', f')
  | None, Some (Text _) => (Aborted not_bytes, <[name := []]> f)
  | None, None => (NoSource, f)
  end.

Definition is_aborted (a : attempt) : bool :=
  match a with Aborted _ => true | _ => false end.

(** The attempts of a batch, up to the one that stops it. *)
Fixpoint attempts (files : list File) (f : gmap string (list byte))
    : list (File * attempt) :=
  match files with
  | [] => []
  | file :: rest =>
      let r := attempt_of file f in
      (file, fst r)
        :: (if is_aborted (fst r) then [] else attempts rest (snd r))
  end.

(** The exception that stopped the batch, if one did. *)
Fixpoint abort_of (l : list (File * attempt)) : option exn :=
  match l with
  | [] => None
  | (_, Aborted e) :: _ => Some e
  | _ :: l' => abort_of l'
  end.

(** The file system when the loop over the batch is left. *)
Fixpoint batch_fs (files : list File) (f : gmap string (list byte))
    : gmap string (list byte) :=
  match files with
  | [] => f
  | file :: rest =>
      let r := attempt_of file f in
      if is_aborted (fst r) then snd r else batch_fs rest (snd r)
  end.

(** The temporary files the batch records for deletion, in order. *)
Definition recorded_by (file : File) (f : gmap string (list byte))
    : list string :=
  if str_truthy (file_path file) then []
  else
    match file_content file with
    | Some (Bytes _) => [temp_name f (splitext_ext (file_name file))]
    | _ => []
    end.

Fixpoint recorded (files : list File) (f : gmap string (list byte))
    : list string :=
  match files with
  | [] => []
  | file :: rest =>
      let r := attempt_of file f in
      recorded_by file f
        ++ (if is_aborted (fst r) then [] else recorded rest (snd r))
  end.

(** A file whose content, if it has to be written to a temporary file, can
    be: it has a path, or its content is not a [str]. *)
Definition writable (file : File) : bool :=
  str_truthy (file_path file)
  || match file_content file with Some (Text _) => false | _ => true end.

(** The same of the files that come with a message, if any do. *)
Definition all_writable (new_files : option (list File)) : bool :=
  match new_files with
  | Some files => forallb writable files
  | None => true
  end.

(** The documents of the files that loaded, in the order of the batch. *)
Definition loaded_documents (l : list (File * attempt)) : list Document :=
  flat_map (fun fa => match snd fa with Loaded docs => docs | _ => [] end) l.

(** The message sent to the user for each file whose load raised. *)
Definition failure_reports (l : list (File * attempt)) : list ui_op :=
  flat_map
    (fun fa =>
       match snd fa with
       | Failed e =>
           [UiSend None
              (PyStr ("處理檔案 `" +:+ file_name (fst fa)
                        +:+ "` 時出錯，已略過。原因: " +:+ exn_msg e))]
       | _ => []
       end) l.

End Service.

(** ** The events, read one by one

    The five kinds of event the loop acts on, under either spelling. *)
Inductive tag : Type :=
| ActionStarted | ToolStarted | ToolEnded | ModelToken | Finished.

Definition tag_of_string (s : string) : option tag :=
  if String.eqb s "on_agent_action" || String.eqb s "agent_action"
  then Some ActionStarted
  else if String.eqb s "on_tool_start" || String.eqb s "tool_start"
  then Some ToolStarted
  else if String.eqb s "on_tool_end" || String.eqb s "tool_end"
  then Some ToolEnded
  else if String.eqb s "on_chat_model_stream" || String.eqb s "llm_chunk"
  then Some ModelToken
  else if String.eqb s "on_agent_finish" || String.eqb s "agent_finish"
  then Some Finished
  else None.

(** The kind an event carries, if it carries one. *)
Definition event_kind (ev : event) : option pyval :=
  match dict_get ev "event" with
  | Some kind => Some kind
  | None => dict_get ev "event_type"
  end.

Definition event_tag (ev : event) : option tag :=
  match event_kind ev with
  | Some (PyStr s) => tag_of_string s
  | _ => None
  end.

Definition event_data (ev : event) : pyval :=
  dict_get_default ev "data" empty_dict.

(** The answer a [finished] event carries. *)
Definition finished_answer (ev : event) : option pyval :=
  match event_tag ev, event_data ev with
  | Some Finished, PyDict items _ =>
      match dict_get items "output" with
      | Some (PyAgentFinish return_values _) => dict_get return_values "output"
      | _ => None
      end
  | _, _ => None
  end.

(** The payload of a [model-token] event: the chunk's [content], or the
    chunk as text when it has none. *)
Definition token_payload (ev : event) : option pyval :=
  match event_tag ev, event_data ev with
  | Some ModelToken, PyDict items _ =>
      let chunk := dict_get_default items "chunk" empty_dict in
      match py_content_attr chunk with
      | Some c => Some c
      | None => Some (PyStr (py_str chunk))
      end
  | _, _ => None
  end.

(** The non-empty answers of the finished events, in arrival order. *)
Definition nonempty_answers (evs : list event) : list pyval :=
  List.filter py_truthy (omap finished_answer evs).

(** The non-empty token payloads, in arrival order. *)
Definition nonempty_tokens (evs : list event) : list string :=
  omap (fun ev =>
          match token_payload ev with
          | Some (PyStr s) => if py_truthy (PyStr s) then Some s else None
          | _ => None
          end) evs.

(** An event the loop can handle without raising: where it reads [data]
    that is a dict, and a token payload is a [str] or is falsy. *)
Definition well_formed (ev : event) : bool :=
  match event_tag ev with
  | None => true
  | Some t =>
      match event_data ev with
      | PyDict _ _ =>
          match t, token_payload ev with
          | ModelToken, Some (PyStr _) => true
          | ModelToken, Some v => negb (py_truthy v)
          | _, _ => true
          end
      | _ => false
      end
  end.

(** The ten spellings the loop recognises. *)
Definition recognised_tags : list string :=
  ["on_agent_action"; "agent_action"; "on_tool_start"; "tool_start";
   "on_tool_end"; "tool_end"; "on_chat_model_stream"; "llm_chunk";
   "on_agent_finish"; "agent_finish"].

Definition recognised (kind : pyval) : bool :=
  existsb (py_eq_str kind) recognised_tags.

(** An event whose kind is none of them, or that carries no kind. *)
Definition unrecognised (ev : event) : bool :=
  match event_kind ev with
  | Some kind => negb (recognised kind)
  | None => true
  end.

Definition has_warning (w : effects) : Prop :=
  exists m : log_msg, In (WARNING, m) (log w).

(** [n] exchanges: the roles of a history of [n] successful turns. *)
Fixpoint alternating (n : nat) : list string :=
  match n with
  | 0 => []
  | S n' => "human" :: "ai" :: alternating n'
  end.

(** The turns that produced an answer. *)
Definition successful (results : list pyval) : nat :=
  length (List.filter py_truthy results).

(** The effects when the [try] block of [process_message] is entered. *)
Definition at_try (user_message : string) (w : effects) : effects :=
  add_log DEBUG (LogUserInput user_message) (add_log DEBUG LogAgentStart w).

(** The effects when the [except] block of [process_message] is left. *)
Definition after_except (e : exn) (w : effects) : effects :=
  add_ui UiRemove
    (add_ui (UiSend None (PyStr ("處理您的問題時發生錯誤: " +:+ exn_msg e)))
       (add_log ERROR (LogAgentError e) w)).

(** ** Sample data for the closed statements *)

Definition no_effects : effects := {| ui := []; log := []; fs := ∅ |}.

Definition doc (text source : string) : Document :=
  {| page_content := text; metadata_source := source |}.

Definition loading_error (path : string) : exn :=
  Exn (OtherError "RuntimeError") ("Error loading " +:+ path).

(** A loader for the samples: a missing file raises, and so does a text
    file holding the byte [0xFF], which no UTF-8 text contains; an empty
    CSV file has no row and gives no document, an empty PDF is rejected;
    anything else gives one document. *)
Definition sample_load (k : loader_kind) (path : string)
    (content : option (list byte)) : outcome (list Document) :=
  match content with
  | None => Raise (loading_error path)
  | Some [] =>
      match k with
      | TextLoader => Ok [doc "" path]
      | CSVLoader => Ok []
      | PyPDFLoader => Raise (loading_error path)
      end
  | Some bytes =>
      if existsb (Byte.eqb xff) bytes then Raise (loading_error path)
      else Ok [doc (string_of_list_byte bytes) path]
  end.

(** A token of the model and the final answer of the agent, as events. *)
Definition token_event (text : string) : event :=
  let chunk_shown := "content='" +:+ text +:+ "'" in
  [("event", PyStr "on_chat_model_stream");
   ("data",
    PyDict [("chunk",
             PyObject "AIMessageChunk" [("content", PyStr text)] true
                      chunk_shown)]
           ("{'chunk': AIMessageChunk(" +:+ chunk_shown +:+ ")}"))].

Definition finish_event (answer : string) : event :=
  let finish_shown := "return_values={'output': '" +:+ answer +:+ "'}" in
  [("event", PyStr "on_agent_finish");
   ("data",
    PyDict [("output",
             PyAgentFinish [("output", PyStr answer)] finish_shown)]
           ("{'output': AgentFinish(" +:+ finish_shown +:+ ")}"))].

(** Three uploads: a text held in memory, a PDF on disk that cannot be
    read, and a CSV on disk that is empty. *)
Definition notes_txt : File :=
  {| file_name := "notes.txt"; file_path := None;
     file_content := Some (Bytes [x68; x69]%byte) |}.

Definition broken_pdf : File :=
  {| file_name := "broken.pdf"; file_path := Some "/uploads/broken.pdf";
     file_content := None |}.

Definition empty_csv : File :=
  {| file_name := "empty.csv"; file_path := Some "/uploads/empty.csv";
     file_content := None |}.

Definition uploads : effects :=
  {| ui := []; log := [];
     fs := {[ "/uploads/broken.pdf" := [xff]%byte;
              "/uploads/empty.csv" := [] ]} |}.

(** An event of a kind the loop has no branch for, an event without a
    kind, and an event that carries a kind under both keys. *)
Definition unknown_kind_event : event :=
  [("event", PyStr "on_chain_start"); ("name", PyStr "AgentExecutor");
   ("data", PyDict [] "{}")].

Definition no_kind_event : event := [("run_id", PyStr "7f3a")].

Definition both_keys_event : event :=
  ("event_type", PyStr "llm_chunk") :: finish_event "done".

(** An agent for the samples: it answers ["ping"] with two tokens and a
    finished event, breaks off on ["boom"], yields an event without a dict
    of data on ["garbled"], and says nothing otherwise. *)
Definition sample_agent (_ : AgentExecutor) (input : string)
    (_ : list (string * pyval)) : event_stream :=
  if String.eqb input "ping" then
    {| stream_events := [token_event "po"; token_event "ng";
                         finish_event "pong"];
       stream_error := None |}
  else if String.eqb input "boom" then
    {| stream_events := [token_event "bo"];
       stream_error := Some (Exn (OtherError "APIConnectionError")
                                 "Connection error.") |}
  else if String.eqb input "garbled" then
    {| stream_events := [[("event", PyStr "on_tool_start"); ("data", PyNone)]];
       stream_error := None |}
  else {| stream_events := [unknown_kind_event]; stream_error := None |}.

(** The service of a session without preloaded knowledge, before its
    first turn. *)
Definition fresh_service : ChatbotService :=
  new_ChatbotService (mkChatOpenAI LLM_MODEL_NAME true) mkOpenAIEmbeddings None.

(** A knowledge folder whose only text file is not valid UTF-8. *)
Definition unreadable_folder : effects :=
  {| ui := []; log := []; fs := {[ "rag_data/story.txt" := [xff]%byte ]} |}.

(** ** The traces of the loop, event by event *)

(** Lines 127 and 134: the name shown for a tool is the one of the event,
    else the one in its data, else a fixed text. *)
Definition shown_tool_name (ev : event) (items : pydict) : string :=
  py_str (dict_get_default ev "name"
            (dict_get_default items "name" (PyStr "未知工具"))).

(** The status messages one event puts on the chat. *)
Definition status_messages_of (ev : event) : list ui_op :=
  match event_tag ev, event_data ev with
  | Some ActionStarted, PyDict items _ =>
      match dict_get items "action" with
      | Some (PyAgentAction tool _ _) =>
          [UiSend system_author
             (PyStr ("&nbsp;&nbsp;➤ 正在使用工具: `" +:+ tool
                       +:+ "` 來查找資料。"))]
      | _ => []
      end
  | Some ToolStarted, PyDict items _ =>
      [UiSend system_author
         (PyStr ("&nbsp;&nbsp;⟳ 開始使用工具: `" +:+ shown_tool_name ev items
                   +:+ "` 來查找資料。"))]
  | Some ToolEnded, PyDict items _ =>
      [UiSend system_author
         (PyStr ("&nbsp;&nbsp;✓ 工具 `" +:+ shown_tool_name ev items
                   +:+ "` 執行完畢。"))]
  | _, _ => []
  end.

(** The log records one event leaves. *)
Definition log_lines_of (ev : event) : list (level * log_msg) :=
  match event_kind ev with
  | None => [(WARNING, LogUnknownStructure ev)]
  | Some _ =>
      match event_tag ev, event_data ev with
      | Some ActionStarted, PyDict items _ =>
          match dict_get items "action" with
          | Some (PyAgentAction tool tool_input _) =>
              [(INFO, LogToolChosen tool); (DEBUG, LogToolInput tool_input)]
          | _ => []
          end
      | Some ModelToken, PyDict _ _ =>
          match token_payload ev with
          | Some (PyStr s) =>
              if py_truthy (PyStr s) then [(DEBUG, LogStreamChunk s)] else []
          | _ => []
          end
      | Some Finished, PyDict _ _ =>
          match finished_answer ev with
          | Some a => if py_truthy a then [(INFO, LogFinalAnswer a)] else []
          | None => []
          end
      | _, _ => []
      end
  end.

(** The effects of the events handled so far, on top of [w]. *)
Definition after_events (evs : list event) (w : effects) : effects :=
  {| ui := ui w ++ flat_map status_messages_of evs;
     log := log w ++ flat_map log_lines_of evs;
     fs := fs w |}.

(** The exception handling an event raises, if it raises: the loop calls
    [get] on data that is not a dict, or adds to the streamed text a token
    payload that is not empty and not a [str]. *)
Definition failure_of (ev : event) : option exn :=
  match event_tag ev with
  | None => None
  | Some t =>
      match event_data ev with
      | PyDict _ _ =>
          match t, token_payload ev with
          | ModelToken, Some (PyStr _) => None
          | ModelToken, Some v =>
              if py_truthy v then Some (cannot_concatenate v) else None
          | _, _ => None
          end
      | data => Some (no_get_attribute data)
      end
  end.

(** ** The session, turn by turn *)

(** What a turn leaves in the history: the exchange, when there was an
    answer. *)
Definition exchange (user_message : string) (r : pyval)
    : list (string * pyval) :=
  if py_truthy r then [("human", PyStr user_message); ("ai", r)] else [].

Fixpoint exchanges (turns : list (string * option (list File)))
    (results : list pyval) : list (string * pyval) :=
  match turns, results with
  | (user_message, _) :: turns', r :: results' =>
      exchange user_message r ++ exchanges turns' results'
  | _, _ => []
  end.

(** The names of the tools of a turn: the preloaded one when the service
    has a retriever, then the uploaded one when files came with the
    message. *)
Definition expected_tool_names (self : ChatbotService)
    (new_files : option (list File)) : list string :=
  match base_retriever self with
  | Some _ => ["preloaded_document_retriever"]
  | None => []
  end
  ++ match new_files with
     | Some (_ :: _) => ["uploaded_file_retriever"]
     | _ => []
     end.

(** ** The preloaded folder, file by file *)

(** The documents of the text files that could be read, in order. *)
Definition text_documents
    (load : loader_kind -> string -> option (list byte)
            -> outcome (list Document))
    (paths : list string) (f : gmap string (list byte)) : list Document :=
  flat_map (fun path =>
              match load TextLoader path (f !! path) with
              | Ok docs => docs
              | Raise _ => []
              end) paths.

(** The warnings for the text files that could not be read, in order. *)
Definition read_warnings
    (load : loader_kind -> string -> option (list byte)
            -> outcome (list Document))
    (paths : list string) (f : gmap string (list byte))
    : list (level * log_msg) :=
  flat_map (fun path =>
              match load TextLoader path (f !! path) with
              | Ok _ => []
              | Raise e => [(WARNING, LogReadError path e)]
              end) paths.

(** [glob.glob] on a file system, without the effects around it. *)
Definition matching_txt (data_folder : string) (f : gmap string (list byte))
    : list string :=
  List.filter (matches_txt data_folder) (map fst (map_to_list f)).

(** ** More sample data *)

(** A token event whose data carries no chunk, a tool event without any
    name, and a token event whose chunk holds a list of content blocks. *)
Definition chunkless_event : event :=
  [("event", PyStr "on_chat_model_stream"); ("data", PyDict [] "{}")].

Definition nameless_tool_event : event :=
  [("event", PyStr "on_tool_start"); ("data", PyDict [] "{}")].

Definition blocks_event : event :=
  [("event", PyStr "on_chat_model_stream");
   ("data",
    PyDict [("chunk",
             PyObject "AIMessageChunk"
               [("content", PyObject "list" [] true "[{'type': 'text'}]")]
               true "content=[{'type': 'text'}]")]
           "{'chunk': AIMessageChunk(content=[{'type': 'text'}])}")].

(** An upload with neither a path nor content, and one with both. *)
Definition hollow_file : File :=
  {| file_name := "hollow.txt"; file_path := None; file_content := None |}.

Definition both_file : File :=
  {| file_name := "empty.csv"; file_path := Some "/uploads/empty.csv";
     file_content := Some (Bytes [x61]%byte) |}.

(** A knowledge folder with one readable and one unreadable text file. *)
Definition mixed_folder : effects :=
  {| ui := []; log := [];
     fs := {[ "rag_data/story.txt" := [xff]%byte;
              "rag_data/world.txt" := [x68; x69]%byte ]} |}.

(** A service with a preloaded retriever. *)
Definition loaded_service : ChatbotService :=
  new_ChatbotService (mkChatOpenAI LLM_MODEL_NAME true) mkOpenAIEmbeddings
    (Some (FaissRetriever [doc "hi" "rag_data/world.txt"]
             mkOpenAIEmbeddings)).

(** A splitter for the samples: a document without text gives no chunk,
    any other document, here shorter than a chunk, is its own chunk. *)
Definition sample_split (_ _ : nat) (docs : list Document) : list Document :=
  List.filter (fun d => negb (String.eqb (page_content d) "")) docs.

(** An upload whose content is a [str], a PDF whose path holds no file,
    and a folder whose only text file is blank. *)
Definition text_upload : File :=
  {| file_name := "memo.txt"; file_path := None;
     file_content := Some (Text "hello") |}.

Definition lost_pdf : File :=
  {| file_name := "lost.pdf"; file_path := Some "/uploads/lost.pdf";
     file_content := None |}.

Definition blank_folder : effects :=
  {| ui := []; log := []; fs := {[ "rag_data/blank.txt" := [] ]} |}.

(** * Properties *)

(** ** Strings *)

Lemma append_cons (a : ascii) (s t : string) :
  String a s +:+ t = String a (s +:+ t).
Proof. reflexivity. Qed.

Lemma append_empty_r (s : string) : s +:+ "" = s.
Proof.
  induction s as [|a s IH]; [reflexivity|].
  now rewrite append_cons, IH.
Qed.

Lemma append_assoc (a b c : string) : (a +:+ b) +:+ c = a +:+ (b +:+ c).
Proof.
  induction a as [|x a IH]; [reflexivity|].
  now rewrite !append_cons, IH.
Qed.

Lemma length_append (a b : string) :
  String.length (a +:+ b) = String.length a + String.length b.
Proof.
  induction a as [|x a IH]; [reflexivity|].
  rewrite append_cons. simpl. now rewrite IH.
Qed.

(** ** The event loop *)

(** The [if]/[elif] chain is a case distinction on the tag of the kind. *)
Lemma dispatch_by_tag (kind data : pyval) (ev : event) (st : loop_state) :
  dispatch kind data ev st =
  match match kind with PyStr s => tag_of_string s | _ => None end with
  | Some ActionStarted => on_action data st
  | Some ToolStarted => on_tool_start data ev st
  | Some ToolEnded => on_tool_end data ev st
  | Some ModelToken => on_token data st
  | Some Finished => on_finish data st
  | None => ret st
  end.
Proof.
  destruct kind as [|s| | | |]; try reflexivity.
  unfold dispatch, tag_of_string, py_eq_str.
  repeat (match goal with
          | |- context [if ?b then _ else _] => destruct b
          end; try reflexivity).
Qed.

Lemma handle_event_by_kind (ev : event) (st : loop_state) :
  handle_event ev st =
  match event_kind ev with
  | Some kind => dispatch kind (event_data ev) ev st
  | None => let* _ := logging WARNING (LogUnknownStructure ev) in ret st
  end.
Proof.
  unfold handle_event, event_kind, event_data.
  destruct (dict_get ev "event"); [reflexivity|].
  destruct (dict_get ev "event_type"); reflexivity.
Qed.

Lemma handle_event_by_tag (ev : event) (st : loop_state) :
  handle_event ev st =
  match event_kind ev with
  | Some _ =>
      match event_tag ev with
      | Some ActionStarted => on_action (event_data ev) st
      | Some ToolStarted => on_tool_start (event_data ev) ev st
      | Some ToolEnded => on_tool_end (event_data ev) ev st
      | Some ModelToken => on_token (event_data ev) st
      | Some Finished => on_finish (event_data ev) st
      | None => ret st
      end
  | None => let* _ := logging WARNING (LogUnknownStructure ev) in ret st
  end.
Proof.
  rewrite handle_event_by_kind. unfold event_tag.
  destruct (event_kind ev) as [kind|]; [|reflexivity].
  apply dispatch_by_tag.
Qed.

Lemma dispatch_same_name (kind data : pyval) (ev ev' : event) (st : loop_state) :
  dict_get ev "name" = dict_get ev' "name" ->
  dispatch kind data ev st = dispatch kind data ev' st.
Proof.
  intros H. rewrite !dispatch_by_tag.
  destruct (match kind with PyStr s => tag_of_string s | _ => None end)
    as [[]|]; try reflexivity;
    unfold on_tool_start, on_tool_end, dict_get_default; now rewrite H.
Qed.

(** C10. An event that carries both ["event"] and ["event_type"] is
    handled by the kind found under ["event"]; whatever ["event_type"]
    holds makes no difference; the kind under ["event_type"] is used when
    ["event"] is absent. *)
Theorem event_key_takes_precedence
    (ev : event) (kind legacy : pyval) (st : loop_state) :
  dict_get ev "event" = Some kind ->
  dict_get ev "event_type" = Some legacy ->
  handle_event ev st = dispatch kind (event_data ev) ev st
  /\ (forall other : pyval,
        handle_event (("event_type", other) :: ev) st = handle_event ev st)
  /\ (forall ev' : event,
        dict_get ev' "event" = None ->
        dict_get ev' "event_type" = Some legacy ->
        handle_event ev' st = dispatch legacy (event_data ev') ev' st).
Proof.
  intros Hnew Hold. repeat split.
  - unfold handle_event, event_data. now rewrite Hnew.
  - intros other. unfold handle_event. simpl. rewrite Hnew.
    unfold dict_get_default. simpl. now apply dispatch_same_name.
  - intros ev' Hnone Hleg. unfold handle_event, event_data.
    now rewrite Hnone, Hleg.
Qed.

Lemma event_key_takes_precedence_witness :
  handle_event both_keys_event loop_start
  = dispatch (PyStr "on_agent_finish") (event_data both_keys_event)
             both_keys_event loop_start
  /\ (forall other : pyval,
        handle_event (("event_type", other) :: both_keys_event) loop_start
        = handle_event both_keys_event loop_start)
  /\ (forall ev' : event,
        dict_get ev' "event" = None ->
        dict_get ev' "event_type" = Some (PyStr "llm_chunk") ->
        handle_event ev' loop_start
        = dispatch (PyStr "llm_chunk") (event_data ev') ev' loop_start).
Proof.
  apply (event_key_takes_precedence both_keys_event
           (PyStr "on_agent_finish") (PyStr "llm_chunk") loop_start);
    reflexivity.
Defined.

Lemma unrecognised_no_tag (kind : pyval) :
  recognised kind = false ->
  match kind with PyStr s => tag_of_string s | _ => None end = None.
Proof.
  destruct kind as [|s| | | |]; try reflexivity.
  unfold recognised, recognised_tags, tag_of_string. simpl.
  intros H. repeat (apply orb_false_elim in H; destruct H as [-> H]).
  reflexivity.
Qed.

(** C5, as the code has it. An event whose kind is none of the ten
    recognised spellings is skipped without a trace: the loop goes on with
    the remaining events from the same state, and nothing is logged or
    shown. A warning is logged only for an event that carries neither the
    ["event"] nor the ["event_type"] key, which is skipped likewise. *)
Theorem unrecognised_event_is_skipped
    (ev : event) (rest : list event) (st : loop_state) (w : effects) :
  unrecognised ev = true ->
  consume_events (ev :: rest) st w
  = consume_events rest st
      (match event_kind ev with
       | Some _ => w
       | None => add_log WARNING (LogUnknownStructure ev) w
       end).
Proof.
  unfold unrecognised. intros H. simpl. unfold bind at 1.
  rewrite handle_event_by_kind.
  destruct (event_kind ev) as [kind|]; [|reflexivity].
  rewrite dispatch_by_tag, unrecognised_no_tag; [reflexivity|].
  now destruct (recognised kind).
Qed.

Lemma unrecognised_event_is_skipped_witness :
  consume_events [unknown_kind_event; token_event "hi"] loop_start no_effects
  = consume_events [token_event "hi"] loop_start no_effects.
Proof.
  apply (unrecognised_event_is_skipped unknown_kind_event
           [token_event "hi"] loop_start no_effects).
  reflexivity.
Defined.

(** C5, as the claim has it, fails: an event of kind [on_chain_start] is
    not one of the recognised kinds, and handling it logs no warning. *)
Lemma unknown_kind_logs_no_warning :
  unrecognised unknown_kind_event = true
  /\ ~ has_warning
         (snd (handle_event unknown_kind_event loop_start no_effects)).
Proof.
  split; [reflexivity|].
  intros [m Hm]. vm_compute in Hm. exact Hm.
Qed.

Lemma concat_cons (s : string) (l : list string) :
  String.concat "" (s :: l) = s +:+ String.concat "" l.
Proof.
  destruct l as [|t l]; simpl; [now rewrite append_empty_r | reflexivity].
Qed.

Ltac run_handlers :=
  unfold on_action, on_tool_start, on_tool_end, on_token, on_finish,
    data_get, bind, ret, raise, logging, send, dict_get_default in *.

(** What one event does to the two locals, when handling it does not
    raise. *)
Lemma handle_event_locals (ev : event) (st st' : loop_state) (w w' : effects) :
  handle_event ev st w = (Ok st', w') ->
  final_answer st'
  = match finished_answer ev with
    | Some a => if py_truthy a then a else final_answer st
    | None => final_answer st
    end
  /\ streamed_response st'
     = streamed_response st
         +:+ match token_payload ev with Some (PyStr s) => s | _ => "" end.
Proof.
  rewrite handle_event_by_tag. unfold finished_answer, token_payload, event_tag.
  destruct (event_kind ev) as [kind|]; simpl.
  2:{ intros H; inversion H; subst. now rewrite append_empty_r. }
  destruct (match kind with PyStr s => tag_of_string s | _ => None end)
    as [[]|]; simpl; run_handlers; intros H;
    repeat case_match; simplify_eq/=;
    repeat match goal with
           | H : negb (_ =? "")%string = false |- _ =>
               apply negb_false_iff, String.eqb_eq in H; try subst;
               try rewrite H
           end;
    rewrite ?append_empty_r; auto; congruence.
Qed.

(** The two locals after a run of the loop that did not raise: the last
    non-empty answer if there was one, and every non-empty token in order. *)
Lemma consume_events_locals (evs : list event) :
  forall (st st' : loop_state) (w w' : effects),
    consume_events evs st w = (Ok st', w') ->
    final_answer st' = default (final_answer st) (last (nonempty_answers evs))
    /\ streamed_response st'
       = streamed_response st +:+ String.concat "" (nonempty_tokens evs).
Proof.
  induction evs as [|ev evs IH]; intros st st' w w' H.
  - inversion H; subst. simpl. now rewrite append_empty_r.
  - simpl in H. unfold bind in H.
    destruct (handle_event ev st w) as [[st1|e] w1] eqn:Hev; [|discriminate].
    apply handle_event_locals in Hev as [Hfin Hstr].
    apply IH in H as [Hfin' Hstr'].
    rewrite Hfin', Hstr', Hfin, Hstr. clear. split.
    + unfold nonempty_answers. simpl.
      destruct (finished_answer ev) as [a|]; simpl; [|reflexivity].
      destruct (py_truthy a); simpl; [|reflexivity].
      rewrite last_cons. now destruct (last _).
    + unfold nonempty_tokens. simpl.
      destruct (token_payload ev) as [[|s| | | |]|]; simpl;
        rewrite ?append_empty_r; try reflexivity.
      destruct (negb (s =? "")%string) eqn:Hs.
      * now rewrite concat_cons, append_assoc.
      * apply negb_false_iff, String.eqb_eq in Hs. subst.
        now rewrite append_empty_r.
Qed.

Lemma last_filter_holds {A : Type} (p : A -> bool) (l : list A) (a : A) :
  last (List.filter p l) = Some a -> p a = true.
Proof.
  intros H. apply last_Some_elem_of, list_elem_of_In, filter_In in H. tauto.
Qed.

(** C1. When the loop has consumed a sequence of events, the answer of
    line 157 is the answer of the last finished event that carried a
    non-empty one, whatever tokens came before or after; when no finished
    event carried a non-empty answer, it is the concatenation of the
    non-empty token payloads in arrival order. *)
Theorem authoritative_answer
    (evs : list event) (st : loop_state) (w w' : effects) :
  consume_events evs loop_start w = (Ok st, w') ->
  (forall a : pyval,
      last (nonempty_answers evs) = Some a -> full_response_of st = a)
  /\ (nonempty_answers evs = [] ->
      full_response_of st = PyStr (String.concat "" (nonempty_tokens evs))).
Proof.
  intros H. apply consume_events_locals in H as [Hfin Hstr].
  unfold full_response_of. rewrite Hfin, Hstr. split.
  - intros a Ha. rewrite Ha. simpl.
    now rewrite (last_filter_holds _ _ _ Ha).
  - intros Hnone. rewrite Hnone. reflexivity.
Qed.

Lemma authoritative_answer_witness :
  full_response_of
    {| streamed_response := "pong"; final_answer := PyStr "pong" |}
  = PyStr "pong".
Proof.
  destruct (authoritative_answer
              [token_event "po"; finish_event "pong"; token_event "ng"]
              {| streamed_response := "pong"; final_answer := PyStr "pong" |}
              no_effects
              (add_log DEBUG (LogStreamChunk "ng")
                 (add_log INFO (LogFinalAnswer (PyStr "pong"))
                    (add_log DEBUG (LogStreamChunk "po") no_effects))))
    as [Hfinished _].
  - reflexivity.
  - apply Hfinished. reflexivity.
Defined.

(** The same run, and a run of tokens only, by evaluation. *)
Example finished_answer_wins :
  fst (consume_events
         [token_event "po"; finish_event "pong"; token_event "ng"]
         loop_start no_effects)
  = Ok {| streamed_response := "pong"; final_answer := PyStr "pong" |}.
Proof. reflexivity. Qed.

Example tokens_are_concatenated :
  match consume_events [token_event "a"; token_event ""; token_event "b"]
          loop_start no_effects with
  | (Ok st, _) => full_response_of st = PyStr "ab"
  | (Raise _, _) => False
  end.
Proof. reflexivity. Qed.

Example event_without_kind_is_logged :
  handle_event no_kind_event loop_start no_effects
  = (Ok loop_start,
     add_log WARNING (LogUnknownStructure no_kind_event) no_effects).
Proof. reflexivity. Qed.


(** Handling a well-formed event returns. *)
Lemma handle_event_completes (ev : event) (st : loop_state) (w : effects) :
  well_formed ev = true ->
  exists (st' : loop_state) (w' : effects),
    handle_event ev st w = (Ok st', w').
Proof.
  rewrite handle_event_by_tag. unfold well_formed, token_payload, event_tag.
  destruct (event_kind ev) as [kind|]; simpl; [|eauto].
  destruct (match kind with PyStr s => tag_of_string s | _ => None end)
    as [[]|]; simpl; run_handlers; intros H;
    repeat case_match; simplify_eq/=; eauto; try congruence;
    match goal with
    | H : negb ?b = true, H' : ?b = true |- _ =>
        rewrite H' in H; discriminate
    end.
Qed.

(** The loop consumes a sequence of well-formed events to its end. *)
Lemma consume_events_completes (evs : list event) :
  Forall (fun ev => well_formed ev = true) evs ->
  forall (st : loop_state) (w : effects),
  exists (st' : loop_state) (w' : effects),
    consume_events evs st w = (Ok st', w').
Proof.
  induction 1 as [|ev evs Hev _ IH]; intros st w; simpl; [eauto|].
  unfold bind.
  destruct (handle_event_completes ev st w Hev) as (st1 & w1 & ->).
  apply IH.
Qed.

(** ** The file system *)

Lemma longest_path_bound (f : gmap string (list byte)) (k : string)
    (v : list byte) :
  f !! k = Some v -> String.length k <= longest_path f.
Proof.
  unfold longest_path. intros H. apply elem_of_map_to_list in H.
  induction (map_to_list f) as [|kv l IH]; [now apply elem_of_nil in H|].
  apply elem_of_cons in H as [<-|H]; simpl; [lia|].
  specialize (IH H). lia.
Qed.

Lemma length_underscores (n : nat) : String.length (underscores n) = n.
Proof. induction n as [|n IH]; simpl; [reflexivity | now rewrite IH]. Qed.

(** The name of a temporary file is not in use. *)
Lemma temp_name_fresh (f : gmap string (list byte)) (suffix : string) :
  f !! temp_name f suffix = None.
Proof.
  destruct (f !! temp_name f suffix) as [v|] eqn:H; [|reflexivity].
  apply longest_path_bound in H. unfold temp_name in H.
  rewrite !length_append, length_underscores in H. simpl in H. lia.
Qed.

Lemma delete_temp_files_spec (paths : list string) :
  forall w : effects,
  exists w' : effects,
    delete_temp_files paths w = (Ok tt, w')
    /\ ui w' = ui w
    /\ forall p : string,
         fs w' !! p = if bool_decide (p ∈ paths) then None else fs w !! p.
Proof.
  induction paths as [|path rest IH]; intros w; simpl.
  - exists w. repeat split.
  - unfold bind, path_exists, unlink, logging, ret. simpl.
    destruct (bool_decide (is_Some (fs w !! path))) eqn:Hex; simpl.
    + destruct (IH (add_log DEBUG (LogTempDeleted path)
                      (set_fs (delete path (fs w)) w)))
        as (w' & -> & Hui & Hfs).
      exists w'. repeat split; [exact Hui|]. intros p. rewrite Hfs. simpl.
      destruct (decide (p = path)) as [->|Hne].
      * rewrite lookup_delete_eq, (bool_decide_eq_true_2 (path ∈ path :: rest))
          by (apply elem_of_cons; auto).
        now destruct (bool_decide (path ∈ rest)).
      * rewrite lookup_delete_ne by congruence.
        apply (f_equal (fun b : bool => if b then None else fs w !! p)).
        apply bool_decide_ext. rewrite elem_of_cons. tauto.
    + destruct (IH w) as (w' & -> & Hui & Hfs).
      exists w'. repeat split; [exact Hui|]. intros p. rewrite Hfs.
      apply bool_decide_eq_false in Hex.
      destruct (decide (p = path)) as [->|Hne].
      * rewrite (bool_decide_eq_true_2 (path ∈ path :: rest))
          by (apply elem_of_cons; auto).
        destruct (fs w !! path) eqn:E; [destruct Hex; eauto|].
        now destruct (bool_decide (path ∈ rest)).
      * apply (f_equal (fun b : bool => if b then None else fs w !! p)).
        apply bool_decide_ext. rewrite elem_of_cons. tauto.
Qed.

Section ServiceProperties.

Variable load_documents :
  loader_kind -> string -> option (list byte) -> outcome (list Document).

Variable astream_events :
  AgentExecutor -> string -> list (string * pyval) -> event_stream.

Variable split_documents : nat -> nat -> list Document -> list Document.

(** ** The ad-hoc index builder *)

Ltac run_builder :=
  unfold load_uploaded_file, attempt_of, attempt_load, recorded_by,
    str_truthy, named_temporary_file, write_temporary_file,
    new_loader, load_path, try_except, lift, get_locals, set_locals,
    bind, ret, raise, logging, send in *.

Lemma temp_name_nonempty (f : gmap string (list byte)) (suffix : string) :
  String.eqb (temp_name f suffix) "" = false.
Proof. reflexivity. Qed.

(** A loader can be built on a path that holds a file. *)
Lemma loader_error_file (loader : loader_kind) (path : string)
    (f : gmap string (list byte)) (content : list byte) :
  f !! path = Some content -> loader_error loader path f = None.
Proof. unfold loader_error. intros ->. now destruct loader. Qed.

(** One turn of the loop over the files, against [attempt_of]. *)
Lemma load_uploaded_file_spec (file : File) (l : builder_locals) (w : effects) :
  exists w1 : effects,
    load_uploaded_file load_documents file (l, w)
    = (match fst (attempt_of load_documents file (fs w)) with
       | Aborted e => Raise e
       | _ => Ok tt
       end,
       ({| documents :=
             documents l
               ++ match fst (attempt_of load_documents file (fs w)) with
                  | Loaded docs => docs
                  | _ => []
                  end;
           temp_files_to_delete :=
             temp_files_to_delete l ++ recorded_by file (fs w) |},
        w1))
    /\ ui w1
       = ui w
           ++ failure_reports [(file, fst (attempt_of load_documents file (fs w)))]
    /\ fs w1 = snd (attempt_of load_documents file (fs w)).
Proof.
  destruct l as [docs temps], file as [name [path|] content]; simpl;
    [destruct (String.eqb path "") eqn:E|];
    destruct content as [[bytes|text]|];
    run_builder; simpl;
    repeat (progress (rewrite ?E, ?temp_name_nonempty; simpl));
    rewrite ?(loader_error_file _ _ _ bytes) by apply lookup_insert_eq;
    simpl;
    try (destruct (loader_error _ _ _); simpl);
    try (destruct (load_documents _ _ _); simpl);
    eexists; rewrite ?app_nil_r; repeat split.
Qed.

(** The loop over the files, against [attempts]: it raises what stopped
    the batch, if something did; it collects the documents of the files
    that loaded, it reports the files whose load raised, and it records the
    temporary files that were written. *)
Lemma load_uploaded_files_spec (files : list File) :
  forall (l : builder_locals) (w : effects),
  exists w1 : effects,
    load_uploaded_files load_documents files (l, w)
    = (match abort_of (attempts load_documents files (fs w)) with
       | Some e => Raise e
       | None => Ok tt
       end,
       ({| documents :=
             documents l
               ++ loaded_documents (attempts load_documents files (fs w));
           temp_files_to_delete :=
             temp_files_to_delete l ++ recorded load_documents files (fs w) |},
        w1))
    /\ ui w1 = ui w ++ failure_reports (attempts load_documents files (fs w))
    /\ fs w1 = batch_fs load_documents files (fs w).
Proof.
  induction files as [|file rest IH]; intros l w; simpl.
  - exists w. destruct l. rewrite !app_nil_r. repeat split.
  - unfold bind at 1.
    destruct (load_uploaded_file_spec file l w) as (w1 & -> & Hui & Hfs).
    destruct (attempt_of load_documents file (fs w)) as [a f1].
    cbn [fst snd] in *. unfold failure_reports in Hui |- *.
    cbn [flat_map fst snd] in Hui |- *. rewrite app_nil_r in Hui.
    unfold loaded_documents. cbn [flat_map fst snd].
    destruct a as [|docs|err|err]; cbn [is_aborted abort_of].
    4: { exists w1. simpl. rewrite !app_nil_r. rewrite app_nil_r in Hui.
         repeat split; assumption. }
    all: match goal with
         | |- context [load_uploaded_files _ _ (?l1, _)] =>
             destruct (IH l1 w1) as (w2 & -> & Hui2 & Hfs2)
         end;
      rewrite Hfs in *; exists w2; cbn [documents temp_files_to_delete];
      rewrite <- !app_assoc; (split; [reflexivity|]);
      (split; [|exact Hfs2]); rewrite Hui2, Hui;
      unfold failure_reports; now rewrite <- ?app_assoc.
Qed.

Lemma build_retriever_spec (docs : list Document) (e : OpenAIEmbeddings)
    (w : effects) :
  build_retriever split_documents docs e w
  = (match split_documents 1000 100 docs with
     | [] => Raise no_chunk
     | chunks => Ok (FaissRetriever chunks e)
     end, w).
Proof. unfold build_retriever. now destruct (split_documents _ _ _). Qed.

(** The whole call: the outcome of the [try] block, after the [finally]
    block has run. *)
Lemma builder_spec (files : list File) (e : OpenAIEmbeddings) (w : effects) :
  let batch := attempts load_documents files (fs w) in
  exists w2 : effects,
    _create_temp_retriever_from_files load_documents split_documents files e w
    = (match abort_of batch with
       | Some err => Raise err
       | None =>
           match loaded_documents batch with
           | [] => Raise no_uploaded_content
           | docs =>
               match split_documents 1000 100 docs with
               | [] => Raise no_chunk
               | chunks => Ok (FaissRetriever chunks e)
               end
           end
       end, w2)
    /\ ui w2 = ui w ++ failure_reports batch
    /\ forall p : string,
         fs w2 !! p
         = if bool_decide (p ∈ recorded load_documents files (fs w)) then None
           else batch_fs load_documents files (fs w) !! p.
Proof.
  intros batch. subst batch.
  unfold _create_temp_retriever_from_files, with_locals, try_finally.
  unfold bind at 1.
  destruct (load_uploaded_files_spec files
              {| documents := []; temp_files_to_delete := [] |} w)
    as (w1 & -> & Hui & Hfs).
  simpl. unfold bind, get_locals, lift. simpl.
  destruct (delete_temp_files_spec
              (recorded load_documents files (fs w)) w1)
    as (w2 & Hdel & Hui2 & Hfs2).
  destruct (abort_of _) as [err|];
    [|destruct (loaded_documents _) as [|d docs];
      [|rewrite build_retriever_spec;
        destruct (split_documents _ _ _) as [|c chunks]]];
    unfold raise, ret; simpl;
    rewrite Hdel; simpl; exists w2; (split; [reflexivity|]);
    rewrite Hui2, Hui; (split; [reflexivity|]);
    intros p; now rewrite Hfs2, Hfs.
Qed.

(** *** The temporary files *)

Lemma attempt_of_fs (file : File) (f : gmap string (list byte)) :
  snd (attempt_of load_documents file f)
  = if str_truthy (file_path file) then f
    else
      let name := temp_name f (splitext_ext (file_name file)) in
      match file_content file with
      | Some (Bytes b) => <[name := b]> (<[name := []]> f)
      | Some (Text _) => <[name := []]> f
      | None => f
      end.
Proof.
  unfold attempt_of, str_truthy.
  destruct (file_path file) as [path|]; [destruct (String.eqb path "")|];
    destruct (file_content file) as [[b|t]|]; reflexivity.
Qed.

(** Reading a file of the batch removes nothing. *)
Lemma attempt_of_keeps (file : File) (f : gmap string (list byte))
    (p : string) :
  is_Some (f !! p) -> is_Some (snd (attempt_of load_documents file f) !! p).
Proof.
  rewrite attempt_of_fs. intros H.
  destruct (str_truthy _); [exact H|].
  destruct (file_content file) as [[b|t]|]; cbv zeta;
    rewrite ?lookup_insert; repeat case_decide; eauto.
Qed.

Lemma attempt_of_none (file : File) (f : gmap string (list byte))
    (p : string) :
  snd (attempt_of load_documents file f) !! p = None -> f !! p = None.
Proof.
  intros H. destruct (f !! p) eqn:E; [|reflexivity].
  destruct (attempt_of_keeps file f p) as [v Hv]; [eauto|]. congruence.
Qed.

(** A file that is recorded was written under a name not in use. *)
Lemma recorded_by_cases (file : File) (f : gmap string (list byte)) :
  let name := temp_name f (splitext_ext (file_name file)) in
  (recorded_by file f = [])
  \/ (recorded_by file f = [name]
      /\ is_Some (snd (attempt_of load_documents file f) !! name)).
Proof.
  intros name. rewrite attempt_of_fs. unfold recorded_by.
  destruct (str_truthy _); [now left|].
  destruct (file_content file) as [[b|t]|]; [right | now left | now left].
  split; [reflexivity|]. cbv zeta. rewrite lookup_insert_eq. eauto.
Qed.

(** A recorded temporary file was not there before the call. *)
Lemma recorded_fresh (files : list File) :
  forall (f : gmap string (list byte)) (p : string),
    p ∈ recorded load_documents files f -> f !! p = None.
Proof.
  induction files as [|file rest IH]; intros f p; simpl.
  - intros H. now apply elem_of_nil in H.
  - rewrite elem_of_app. intros [H|H].
    + destruct (recorded_by_cases file f) as [E|[E _]]; rewrite E in H.
      * now apply elem_of_nil in H.
      * apply list_elem_of_singleton in H as ->. apply temp_name_fresh.
    + destruct (is_aborted _); [now apply elem_of_nil in H|].
      apply IH in H. now apply attempt_of_none in H.
Qed.

Lemma batch_fs_keeps (files : list File) :
  forall (f : gmap string (list byte)) (p : string),
    is_Some (f !! p) -> is_Some (batch_fs load_documents files f !! p).
Proof.
  induction files as [|file rest IH]; intros f p H; simpl; [exact H|].
  destruct (is_aborted _); [|apply IH]; now apply attempt_of_keeps.
Qed.

(** A recorded temporary file is on disk when the loop is left. *)
Lemma batch_fs_recorded (files : list File) :
  forall (f : gmap string (list byte)) (p : string),
    p ∈ recorded load_documents files f ->
    is_Some (batch_fs load_documents files f !! p).
Proof.
  induction files as [|file rest IH]; intros f p; simpl.
  - intros H. now apply elem_of_nil in H.
  - rewrite elem_of_app. intros [H|H].
    + destruct (recorded_by_cases file f) as [E|[E Hthere]]; rewrite E in H.
      * now apply elem_of_nil in H.
      * apply list_elem_of_singleton in H as ->.
        destruct (is_aborted _); [exact Hthere | now apply batch_fs_keeps].
    + destruct (is_aborted _); [now apply elem_of_nil in H | now apply IH].
Qed.

(** When every content can be written, reading the batch changes the file
    system at the recorded temporary files only. *)
Lemma batch_fs_other (files : list File) :
  forallb writable files = true ->
  forall (f : gmap string (list byte)) (p : string),
    p ∉ recorded load_documents files f ->
    batch_fs load_documents files f !! p = f !! p.
Proof.
  induction files as [|file rest IH]; simpl; [reflexivity|].
  intros [Hfile Hrest]%andb_true_iff f p.
  rewrite not_elem_of_app. intros [H1 H2].
  assert (snd (attempt_of load_documents file f) !! p = f !! p) as Hsame.
  { rewrite attempt_of_fs. revert H1 Hfile. unfold recorded_by, writable.
    destruct (str_truthy _); [reflexivity|].
    destruct (file_content file) as [[b|t]|]; cbv zeta; simpl;
      [|discriminate|reflexivity].
    intros H1 _. rewrite !lookup_insert_ne; [reflexivity| |];
      intros Heq; apply H1; now apply list_elem_of_singleton. }
  destruct (is_aborted _); [exact Hsame|]. now rewrite IH.
Qed.

(** The call gives back the file system it was given, when every content
    can be written. *)
Lemma builder_restores_fs (files : list File) (e : OpenAIEmbeddings)
    (w : effects) :
  forallb writable files = true ->
  fs (snd (_create_temp_retriever_from_files load_documents split_documents
             files e w)) = fs w.
Proof.
  intros Hw. destruct (builder_spec files e w) as (w2 & -> & _ & Hfs).
  simpl. apply map_eq. intros p. rewrite Hfs. case_bool_decide as Hp.
  - symmetry. now apply recorded_fresh in Hp.
  - now apply batch_fs_other.
Qed.

Lemma loaded_documents_elem (l : list (File * attempt)) (d : Document) :
  d ∈ loaded_documents l
  <-> exists (file : File) (docs : list Document),
        (file, Loaded docs) ∈ l /\ d ∈ docs.
Proof.
  unfold loaded_documents. rewrite list_elem_of_In, in_flat_map. split.
  - intros ([file a] & Hin & Hd). simpl in Hd.
    destruct a as [|docs| |]; try now destruct Hd.
    exists file, docs. now rewrite !list_elem_of_In.
  - intros (file & docs & Hin & Hd).
    exists (file, Loaded docs). now rewrite <- !list_elem_of_In.
Qed.

Lemma failure_reports_elem (l : list (File * attempt)) (file : File) (err : exn) :
  (file, Failed err) ∈ l ->
  UiSend None
    (PyStr ("處理檔案 `" +:+ file_name file
              +:+ "` 時出錯，已略過。原因: " +:+ exn_msg err))
  ∈ failure_reports l.
Proof.
  unfold failure_reports. rewrite !list_elem_of_In, in_flat_map.
  intros H. exists (file, Failed err). split; [exact H|]. now left.
Qed.

(** C6, as the code has it. When the batch is read to its end, at least
    one file of it loads with at least one document and the documents
    loaded give at least one chunk, the builder completes: the index is
    built from the documents of the files that loaded, in the order of the
    batch, and from nothing else, and for every file whose load raised a
    message naming the file and the reason is sent to the user. *)
Theorem failed_files_are_skipped
    (files : list File) (e : OpenAIEmbeddings) (w : effects)
    (good : File) (good_docs : list Document) :
  (good, Loaded good_docs) ∈ attempts load_documents files (fs w) ->
  good_docs <> [] ->
  abort_of (attempts load_documents files (fs w)) = None ->
  split_documents 1000 100
    (loaded_documents (attempts load_documents files (fs w))) <> [] ->
  let batch := attempts load_documents files (fs w) in
  let r := _create_temp_retriever_from_files load_documents split_documents
             files e w in
  fst r
  = Ok (FaissRetriever (split_documents 1000 100 (loaded_documents batch)) e)
  /\ (forall d : Document,
        d ∈ loaded_documents batch
        <-> exists (file : File) (docs : list Document),
              (file, Loaded docs) ∈ batch /\ d ∈ docs)
  /\ ui (snd r) = ui w ++ failure_reports batch
  /\ (forall (file : File) (err : exn),
        (file, Failed err) ∈ batch ->
        UiSend None
          (PyStr ("處理檔案 `" +:+ file_name file
                    +:+ "` 時出錯，已略過。原因: " +:+ exn_msg err))
        ∈ ui (snd r)).
Proof.
  intros Hgood Hne Hend Hchunks batch r. subst batch r.
  destruct (builder_spec files e w) as (w2 & -> & Hui & _). simpl.
  assert (loaded_documents (attempts load_documents files (fs w)) <> [])
    as Hdocs.
  { destruct good_docs as [|d ds]; [congruence|]. intros Hnil.
    assert (d ∈ loaded_documents (attempts load_documents files (fs w)))
      as Hd.
    { apply loaded_documents_elem. exists good, (d :: ds).
      split; [exact Hgood | apply elem_of_cons; auto]. }
    rewrite Hnil in Hd. now apply elem_of_nil in Hd. }
  rewrite Hend. repeat split.
  - destruct (loaded_documents _); [congruence|].
    now destruct (split_documents _ _ _).
  - apply loaded_documents_elem.
  - apply loaded_documents_elem.
  - exact Hui.
  - intros file err H. rewrite Hui, elem_of_app. right.
    now apply failure_reports_elem.
Qed.

(** ** One turn *)

(** The [except] block does not raise. *)
Lemma turn_failed_spec (e : exn) (w : effects) :
  turn_failed e w = (Ok (PyStr ""), after_except e w).
Proof. reflexivity. Qed.

(** A call of [process_message] returns: with the value of the [try]
    block, or with the empty string when the block raised; the history
    gets the exchange exactly when that value is not empty. *)
Lemma process_message_spec
    (self : ChatbotService) (user_message : string)
    (new_files : option (list File)) (w : effects) :
  exists (r : pyval) (self' : ChatbotService) (w' : effects),
    process_message load_documents astream_events split_documents self
      user_message new_files w = (Ok (r, self'), w')
    /\ llm self' = llm self
    /\ embeddings self' = embeddings self
    /\ base_retriever self' = base_retriever self
    /\ chat_history self'
       = if py_truthy r
         then chat_history self
                ++ [("human", PyStr user_message); ("ai", r)]
         else chat_history self.
Proof.
  unfold process_message, try_except, bind, logging, ret. simpl.
  destruct (turn_body _ _ _ _ _ _ _) as [[r|e] w1].
  - destruct (py_truthy r) eqn:Hr; do 3 eexists;
      (split; [reflexivity|]); simpl; rewrite ?Hr; auto.
  - rewrite turn_failed_spec. simpl. do 3 eexists.
    split; [reflexivity|]. auto.
Qed.

Lemma alternating_length (n : nat) : length (alternating n) = 2 * n.
Proof. induction n as [|n IH]; simpl; [reflexivity | rewrite IH; lia]. Qed.

(** Several turns: the history grows by one exchange per turn that
    produced an answer. *)
Lemma run_turns_spec (turns : list (string * option (list File))) :
  forall (self : ChatbotService) (w : effects),
  exists (rs : list pyval) (self' : ChatbotService) (w' : effects)
         (added : list (string * pyval)),
    run_turns load_documents astream_events split_documents self turns w
    = (Ok (rs, self'), w')
    /\ length rs = length turns
    /\ chat_history self' = chat_history self ++ added
    /\ map fst added = alternating (successful rs).
Proof.
  induction turns as [|[user_message new_files] rest IH]; intros self w; simpl.
  - exists [], self, w, []. now rewrite app_nil_r.
  - unfold bind at 1.
    destruct (process_message_spec self user_message new_files w)
      as (r & self1 & w1 & -> & _ & _ & _ & Hh).
    cbn [snd fst]. unfold bind at 1.
    destruct (IH self1 w1) as (rs & self2 & w2 & added & -> & Hlen & Hh2 &
      Hroles).
    unfold ret. simpl.
    destruct (py_truthy r) eqn:Hr.
    + exists (r :: rs), self2, w2,
        ([("human", PyStr user_message); ("ai", r)] ++ added).
      rewrite Hh2, Hh, <- app_assoc. unfold successful in *. simpl.
      rewrite Hr, Hroles. simpl. repeat split. now rewrite Hlen.
    + exists (r :: rs), self2, w2, added.
      rewrite Hh2, Hh. unfold successful in *. simpl. rewrite Hr.
      repeat split; [now rewrite Hlen | exact Hroles].
Qed.

(** C2. A call of [process_message] appends to the history exactly the
    pair (human, input), (ai, answer) when it produced a non-empty answer
    and leaves the history as it was otherwise; so after any sequence of
    turns of a new service the history has two entries per successful
    turn, alternating human and ai. *)
Theorem history_records_successful_turns :
  (forall (self : ChatbotService) (user_message : string)
          (new_files : option (list File)) (w : effects),
      exists (r : pyval) (self' : ChatbotService) (w' : effects),
        process_message load_documents astream_events split_documents self
          user_message new_files w = (Ok (r, self'), w')
        /\ chat_history self'
           = if py_truthy r
             then chat_history self
                    ++ [("human", PyStr user_message); ("ai", r)]
             else chat_history self)
  /\ (forall (l : ChatOpenAI) (e : OpenAIEmbeddings)
             (base : option BaseRetriever)
             (turns : list (string * option (list File))) (w : effects),
        exists (rs : list pyval) (self' : ChatbotService) (w' : effects),
          run_turns load_documents astream_events split_documents
            (new_ChatbotService l e base) turns w = (Ok (rs, self'), w')
          /\ length rs = length turns
          /\ length (chat_history self') = 2 * successful rs
          /\ map fst (chat_history self') = alternating (successful rs)).
Proof.
  split.
  - intros self user_message new_files w.
    destruct (process_message_spec self user_message new_files w)
      as (r & self' & w' & H & _ & _ & _ & Hh).
    eauto.
  - intros l e base turns w.
    destruct (run_turns_spec turns (new_ChatbotService l e base) w)
      as (rs & self' & w' & added & H & Hlen & Hh & Hroles).
    simpl in Hh. exists rs, self', w'. rewrite Hh.
    repeat split; [exact H | exact Hlen | | exact Hroles].
    now rewrite <- (length_map fst), Hroles, alternating_length.
Qed.

(** C3. When anything raises inside the [try] block of a turn, the call
    still returns: the error is logged and shown to the user in a message,
    the result is the empty string, the service is as it was before the
    call, history included, and any later call on it returns too. *)
Theorem failed_turn_is_contained
    (self : ChatbotService) (user_message : string)
    (new_files : option (list File)) (w w1 : effects) (e : exn) :
  turn_body load_documents astream_events split_documents self user_message
    new_files (at_try user_message w) = (Raise e, w1) ->
  process_message load_documents astream_events split_documents self
    user_message new_files w
  = (Ok (PyStr "", self), after_except e w1)
  /\ UiSend None (PyStr ("處理您的問題時發生錯誤: " +:+ exn_msg e))
     ∈ ui (after_except e w1)
  /\ (forall (next_message : string) (next_files : option (list File))
             (w2 : effects),
        exists (r : pyval) (self' : ChatbotService) (w3 : effects),
          process_message load_documents astream_events split_documents self
            next_message next_files w2 = (Ok (r, self'), w3)).
Proof.
  intros H. split; [|split].
  - unfold process_message, try_except, bind, logging, ret. simpl.
    unfold at_try in H. rewrite H. now rewrite turn_failed_spec.
  - unfold after_except, add_ui. simpl. rewrite !elem_of_app.
    left. right. apply elem_of_cons. now left.
  - intros next_message next_files w2.
    destruct (process_message_spec self next_message next_files w2)
      as (r & self' & w3 & Hr & _).
    eauto.
Qed.

(** A turn whose tools were assembled and whose stream was consumed to
    its end: the answer of line 157 is sent as a message of its own and
    returned when it is not empty; otherwise the update of the placeholder
    raises. *)
Lemma turn_body_spec
    (self : ChatbotService) (user_message : string)
    (new_files : option (list File)) (w w1 w2 : effects)
    (tools : list Tool) (st : loop_state) :
  assemble_tools load_documents split_documents self new_files w
  = (Ok tools, w1) ->
  run_stream
    (astream_events (_create_agent_executor (llm self) tools) user_message
       (chat_history self))
    loop_start (add_ui (UiSend None (PyStr "")) w1) = (Ok st, w2) ->
  turn_body load_documents astream_events split_documents self user_message
    new_files w
  = if py_truthy (full_response_of st)
    then (Ok (full_response_of st),
          add_ui UiRemove (add_ui (UiSend None (full_response_of st)) w2))
    else (Raise update_rejected, w2).
Proof.
  intros Htools Hrun. unfold turn_body, bind at 1. rewrite Htools.
  unfold bind at 1, send. simpl. unfold bind at 1. rewrite Hrun.
  destruct (py_truthy (full_response_of st)); reflexivity.
Qed.

(** C8, as the code runs. When the tools were assembled and the run of
    the agent was consumed to its end without a non-empty finished answer
    and without a non-empty token, the result is the empty string and the
    service, history included, is as it was; but the apology is not shown:
    the call that should put it in the placeholder raises, so the [except]
    block logs the exception, sends the general error message with its
    text, and removes the placeholder. *)
Theorem silent_turn_shows_no_apology
    (self : ChatbotService) (user_message : string)
    (new_files : option (list File)) (w w1 w2 : effects)
    (tools : list Tool) (st : loop_state) :
  assemble_tools load_documents split_documents self new_files
    (at_try user_message w) = (Ok tools, w1) ->
  let s := astream_events (_create_agent_executor (llm self) tools)
             user_message (chat_history self) in
  consume_events (stream_events s) loop_start
    (add_ui (UiSend None (PyStr "")) w1) = (Ok st, w2) ->
  stream_error s = None ->
  nonempty_answers (stream_events s) = [] ->
  nonempty_tokens (stream_events s) = [] ->
  process_message load_documents astream_events split_documents self
    user_message new_files w
  = (Ok (PyStr "", self), after_except update_rejected w2)
  /\ ui (after_except update_rejected w2)
     = ui w2
         ++ [UiSend None
               (PyStr ("處理您的問題時發生錯誤: " +:+ exn_msg update_rejected));
             UiRemove].
Proof.
  intros Htools s Hloop Herr Hans Htok.
  split; [|unfold after_except; simpl; now rewrite <- app_assoc].
  pose proof (consume_events_locals _ _ _ _ _ Hloop) as [Hfin Hstr].
  rewrite Hans in Hfin. rewrite Htok in Hstr. simpl in Hfin, Hstr.
  unfold process_message, try_except, bind, logging, ret. simpl.
  unfold at_try in Htools. unfold turn_body, bind at 1. rewrite Htools.
  unfold bind at 1, send. simpl.
  unfold bind at 1, run_stream, bind at 1. fold s. rewrite Hloop, Herr.
  unfold ret, full_response_of. rewrite Hfin, Hstr. simpl.
  reflexivity.
Qed.

(** ** The preloaded knowledge source *)

Lemma glob_txt_spec (data_folder : string) (w : effects) (paths : list string) :
  fst (glob_txt data_folder w) = Ok paths ->
  glob_txt data_folder w = (Ok paths, w).
Proof. unfold glob_txt. simpl. now intros [= ->]. Qed.

(** C9, as the code has it. When no [.txt] file matches, the service is
    still created, without the preloaded retriever and with a warning in
    the log, the session stores it and every later message is processed.
    When files match but no document can be loaded from them,
    [create_chatbot_service] raises: the chat start reports the failure to
    the user, stores no service, and a later message is answered with the
    notice that the system is not ready. *)
Theorem missing_folder_is_not_fatal (w : effects) :
  (fst (glob_txt RAG_DATA_FOLDER w) = Ok [] ->
   let w1 :=
     add_log WARNING (LogNoKnowledgeBase (no_txt_files RAG_DATA_FOLDER)) w in
   create_chatbot_service load_documents split_documents w
   = (Ok fresh_service, w1)
   /\ has_warning w1
   /\ start_chat load_documents split_documents None w
      = (Ok (Some fresh_service), add_ui (UiSend None (PyStr greeting)) w1)
   /\ (forall (content : string) (elements : list File) (w2 : effects),
         exists (r : pyval) (self' : ChatbotService) (w3 : effects),
           process_message load_documents astream_events split_documents
             fresh_service content (Some elements) w2 = (Ok (r, self'), w3)
           /\ on_message load_documents astream_events split_documents
                (Some fresh_service) content elements w2
              = (Ok (Some self'), w3)))
  /\ (forall (paths : list string) (w1 : effects),
        fst (glob_txt RAG_DATA_FOLDER w) = Ok paths ->
        paths <> [] ->
        load_text_files load_documents paths []
          (add_log INFO (LogLoadingFolder RAG_DATA_FOLDER (length paths)) w)
        = (Ok [], w1) ->
        let e := no_preloaded_content RAG_DATA_FOLDER in
        let w2 :=
          add_ui (UiSend None
                    (PyStr ("初始化時發生嚴重錯誤，請檢查 Log: " +:+ exn_msg e)))
            (add_log ERROR (LogInitError e) w1) in
        create_chatbot_service load_documents split_documents w = (Raise e, w1)
        /\ start_chat load_documents split_documents None w = (Ok None, w2)
        /\ (forall (content : string) (elements : list File) (w3 : effects),
              on_message load_documents astream_events split_documents None
                content elements w3
              = (Ok None, add_ui (UiSend None (PyStr not_ready)) w3))).
Proof.
  split.
  - intros Hglob w1.
    assert (create_chatbot_service load_documents split_documents w
            = (Ok fresh_service, w1)) as Hcreate.
    { unfold create_chatbot_service, try_except_FileNotFoundError,
        _create_rag_retriever, bind.
      now rewrite (glob_txt_spec _ _ _ Hglob). }
    split; [exact Hcreate|]. split; [|split].
    + exists (LogNoKnowledgeBase (no_txt_files RAG_DATA_FOLDER)).
      subst w1. unfold add_log. simpl. apply in_or_app. right. now left.
    + unfold start_chat, try_except, bind. now rewrite Hcreate.
    + intros content elements w2.
      destruct (process_message_spec fresh_service content (Some elements) w2)
        as (r & self' & w3 & Hr & _).
      exists r, self', w3. split; [exact Hr|].
      unfold on_message, bind. now rewrite Hr.
  - intros paths w1 Hglob Hne Hload e w2.
    assert (create_chatbot_service load_documents split_documents w
            = (Raise e, w1)) as Hcreate.
    { unfold create_chatbot_service, try_except_FileNotFoundError,
        _create_rag_retriever, bind.
      rewrite (glob_txt_spec _ _ _ Hglob).
      destruct paths as [|path paths]; [congruence|].
      unfold logging at 1. cbv beta iota. rewrite Hload. reflexivity. }
    split; [exact Hcreate|]. split; [|reflexivity].
    unfold start_chat, try_except, bind. now rewrite Hcreate.
Qed.

End ServiceProperties.



(** C4, at the failing input. The batch holds one upload whose content is
    a [str]. The temporary file is created, the write of line 240 raises
    before line 242 records the name, the [finally] block has nothing to
    delete, and the call raises and leaves the empty temporary file on
    disk. *)
Theorem unwritten_temporary_file_stays :
  let name := temp_name (fs uploads) ".txt" in
  let r := _create_temp_retriever_from_files sample_load sample_split
             [text_upload] mkOpenAIEmbeddings uploads in
  fs uploads !! name = None
  /\ temp_files_to_delete
       (fst (snd (load_uploaded_files sample_load [text_upload]
                    ({| documents := []; temp_files_to_delete := [] |},
                     uploads)))) = []
  /\ fst r = Raise not_bytes
  /\ fs (snd r) = <[name := []]> (fs uploads).
Proof. repeat split; vm_compute; reflexivity. Qed.

(** C7, at the failing inputs. A batch of one file, a PDF by its name,
    whose path holds no file, and a batch of one upload whose content is a
    [str]: in both no document is loaded and the builder raises, but not
    its "no content" error. The loader is built outside the [try] of line
    252, and the content is written outside it too; what they raise stops
    the batch before line 257 is reached. *)
Theorem zero_documents_without_no_content_error :
  let loop files :=
    load_uploaded_files sample_load files
      ({| documents := []; temp_files_to_delete := [] |}, uploads) in
  let call files :=
    _create_temp_retriever_from_files sample_load sample_split files
      mkOpenAIEmbeddings uploads in
  documents (fst (snd (loop [lost_pdf]))) = []
  /\ fst (call [lost_pdf]) = Raise (not_a_file "/uploads/lost.pdf")
  /\ fst (call [lost_pdf]) <> Raise no_uploaded_content
  /\ documents (fst (snd (loop [text_upload]))) = []
  /\ fst (call [text_upload]) = Raise not_bytes
  /\ fst (call [text_upload]) <> Raise no_uploaded_content.
Proof. repeat split; vm_compute; first [reflexivity | discriminate]. Qed.

Lemma failed_files_are_skipped_witness :
  fst (_create_temp_retriever_from_files sample_load sample_split
         [notes_txt; broken_pdf] mkOpenAIEmbeddings uploads)
  = Ok (FaissRetriever [doc "hi" (temp_name (fs uploads) ".txt")]
          mkOpenAIEmbeddings)
  /\ UiSend None
       (PyStr ("處理檔案 `broken.pdf` 時出錯，已略過。原因: "
                 +:+ "Error loading /uploads/broken.pdf"))
     ∈ ui (snd (_create_temp_retriever_from_files sample_load sample_split
                  [notes_txt; broken_pdf] mkOpenAIEmbeddings uploads)).
Proof.
  destruct (failed_files_are_skipped sample_load sample_split
              [notes_txt; broken_pdf] mkOpenAIEmbeddings uploads notes_txt
              [doc "hi" (temp_name (fs uploads) ".txt")])
    as (Hr & _ & _ & Hrep).
  - vm_compute. apply elem_of_cons. now left.
  - discriminate.
  - reflexivity.
  - vm_compute. discriminate.
  - split; [exact Hr|].
    apply (Hrep broken_pdf (loading_error "/uploads/broken.pdf")).
    vm_compute. apply elem_of_cons. right. apply elem_of_cons. now left.
Defined.

(** C6, as the claim has it, fails: in this batch the empty CSV file
    loads successfully, with no row and so no document, the PDF fails, and
    the builder raises instead of completing. *)
Lemma empty_load_does_not_complete :
  (empty_csv, Loaded [])
    ∈ attempts sample_load [empty_csv; broken_pdf] (fs uploads)
  /\ fst (_create_temp_retriever_from_files sample_load sample_split
            [empty_csv; broken_pdf] mkOpenAIEmbeddings uploads)
     = Raise no_uploaded_content.
Proof.
  split; [vm_compute; apply elem_of_cons; now left | reflexivity].
Qed.

(** ** The theorems on the sample data *)

(** The temporary file of an upload held in memory is on disk, with the
    uploaded bytes, while the batch is read. *)
Example temporary_file_during_the_call :
  fs (snd (snd (load_uploaded_files sample_load [notes_txt; broken_pdf]
                  ({| documents := []; temp_files_to_delete := [] |},
                   uploads))))
    !! temp_name (fs uploads) ".txt"
  = Some [x68; x69]%byte.
Proof. vm_compute. reflexivity. Qed.

(** The four places a turn can raise from: the index builder, the
    iterator of the agent, and the loop itself on an event without a dict
    of data. *)
Example turn_raises_in_index_building :
  fst (turn_body sample_load sample_agent sample_split fresh_service "ping"
         (Some [broken_pdf]) (at_try "ping" uploads))
  = Raise no_uploaded_content.
Proof. vm_compute. reflexivity. Qed.

Example turn_raises_in_orchestration :
  fst (turn_body sample_load sample_agent sample_split fresh_service "boom"
         None (at_try "boom" no_effects))
  = Raise (Exn (OtherError "APIConnectionError") "Connection error.").
Proof. vm_compute. reflexivity. Qed.

Example turn_raises_in_classification :
  fst (turn_body sample_load sample_agent sample_split fresh_service
         "garbled" None (at_try "garbled" no_effects))
  = Raise (no_get_attribute PyNone).
Proof. vm_compute. reflexivity. Qed.

(** A turn that succeeds, for comparison. *)
Example turn_answers :
  fst (process_message sample_load sample_agent sample_split fresh_service
         "ping" None no_effects)
  = Ok (PyStr "pong",
        {| llm := llm fresh_service; embeddings := embeddings fresh_service;
           base_retriever := None;
           chat_history := [("human", PyStr "ping"); ("ai", PyStr "pong")] |}).
Proof. vm_compute. reflexivity. Qed.

Lemma failed_turn_is_contained_witness :
  let e := Exn (OtherError "APIConnectionError") "Connection error." in
  let w1 := snd (turn_body sample_load sample_agent sample_split
                   fresh_service "boom" None (at_try "boom" no_effects)) in
  process_message sample_load sample_agent sample_split fresh_service "boom"
    None no_effects
  = (Ok (PyStr "", fresh_service), after_except e w1)
  /\ UiSend None (PyStr ("處理您的問題時發生錯誤: " +:+ exn_msg e))
     ∈ ui (after_except e w1)
  /\ (forall (next_message : string) (next_files : option (list File))
             (w2 : effects),
        exists (r : pyval) (self' : ChatbotService) (w3 : effects),
          process_message sample_load sample_agent sample_split fresh_service
            next_message next_files w2 = (Ok (r, self'), w3)).
Proof.
  intros e w1.
  apply (failed_turn_is_contained sample_load sample_agent sample_split
           fresh_service "boom" None no_effects w1 e).
  vm_compute. reflexivity.
Defined.

Lemma silent_turn_shows_no_apology_witness :
  process_message sample_load sample_agent sample_split fresh_service "hello"
    None no_effects
  = (Ok (PyStr "", fresh_service),
     after_except update_rejected
       (add_ui (UiSend None (PyStr "")) (at_try "hello" no_effects)))
  /\ ui (after_except update_rejected
           (add_ui (UiSend None (PyStr "")) (at_try "hello" no_effects)))
     = [UiSend None (PyStr "");
        UiSend None
          (PyStr ("處理您的問題時發生錯誤: "
                    +:+ "Message.update() got an unexpected keyword "
                    +:+ "argument 'content'"));
        UiRemove].
Proof.
  apply (silent_turn_shows_no_apology sample_load sample_agent sample_split
           fresh_service "hello" None no_effects (at_try "hello" no_effects)
           (add_ui (UiSend None (PyStr "")) (at_try "hello" no_effects))
           [] loop_start);
    vm_compute; reflexivity.
Defined.

Lemma missing_folder_is_not_fatal_witness :
  create_chatbot_service sample_load sample_split no_effects
  = (Ok fresh_service,
     add_log WARNING (LogNoKnowledgeBase (no_txt_files RAG_DATA_FOLDER))
       no_effects)
  /\ start_chat sample_load sample_split None no_effects
     = (Ok (Some fresh_service),
        add_ui (UiSend None (PyStr greeting))
          (add_log WARNING (LogNoKnowledgeBase (no_txt_files RAG_DATA_FOLDER))
             no_effects)).
Proof.
  destruct (missing_folder_is_not_fatal sample_load sample_agent sample_split
              no_effects) as [Hmissing _].
  destruct Hmissing as (Hcreate & _ & Hstart & _).
  - vm_compute. reflexivity.
  - split; [exact Hcreate | exact Hstart].
Defined.

(** C9, as the claim has it, fails: the folder holds a text file that
    cannot be decoded, so no document is loaded; the service is not
    created, the chat start stores nothing, and the next message is not
    processed but answered with the notice that the system is not ready. *)
Lemma unreadable_folder_is_fatal :
  fst (glob_txt RAG_DATA_FOLDER unreadable_folder) = Ok ["rag_data/story.txt"]
  /\ fst (create_chatbot_service sample_load sample_split unreadable_folder)
     = Raise (no_preloaded_content RAG_DATA_FOLDER)
  /\ fst (start_chat sample_load sample_split None unreadable_folder) = Ok None
  /\ on_message sample_load sample_agent sample_split None "ping" [] no_effects
     = (Ok None, add_ui (UiSend None (PyStr not_ready)) no_effects).
Proof. repeat split; vm_compute; reflexivity. Qed.

(** * More properties *)

(** ** The loop and its traces *)

Lemma consume_events_app (evs1 evs2 : list event) :
  forall (st : loop_state) (w : effects),
    consume_events (evs1 ++ evs2) st w
    = match consume_events evs1 st w with
      | (Ok st1, w1) => consume_events evs2 st1 w1
      | (Raise e, w1) => (Raise e, w1)
      end.
Proof.
  induction evs1 as [|ev evs1 IH]; intros st w; simpl; [reflexivity|].
  unfold bind. destruct (handle_event ev st w) as [[st1|e] w1];
    [apply IH | reflexivity].
Qed.

Lemma after_events_nil (w : effects) : after_events [] w = w.
Proof. destruct w. unfold after_events. simpl. now rewrite !app_nil_r. Qed.

Lemma after_events_cons (ev : event) (evs : list event) (w : effects) :
  after_events (ev :: evs) w = after_events evs (after_events [ev] w).
Proof.
  unfold after_events. simpl. now rewrite !app_nil_r, <- !app_assoc.
Qed.

Ltac same_effects :=
  unfold after_events, add_ui, add_log; simpl;
  rewrite ?app_nil_r, <- ?app_assoc; try reflexivity.

(** Handling an event that raises leaves no trace. *)
Lemma handle_event_raises (ev : event) (e : exn) (st : loop_state)
    (w : effects) :
  failure_of ev = Some e -> handle_event ev st w = (Raise e, w).
Proof.
  rewrite handle_event_by_tag. unfold failure_of, token_payload, event_tag.
  destruct (event_kind ev) as [kind|]; simpl; [|discriminate].
  destruct (match kind with PyStr s => tag_of_string s | _ => None end)
    as [[]|]; simpl; run_handlers; intros H;
    repeat case_match; simplify_eq/=; try reflexivity; congruence.
Qed.

(** Handling an event that does not raise leaves its status messages and
    its log records, and nothing else. *)
Lemma handle_event_returns (ev : event) (st : loop_state) (w : effects) :
  failure_of ev = None ->
  exists st' : loop_state,
    handle_event ev st w = (Ok st', after_events [ev] w).
Proof.
  rewrite handle_event_by_tag. unfold after_events. cbn [flat_map].
  rewrite !app_nil_r.
  unfold failure_of, status_messages_of, log_lines_of, finished_answer,
    token_payload, event_tag, shown_tool_name.
  destruct w as [u l f].
  destruct (event_kind ev) as [kind|]; simpl.
  2:{ intros _. eexists. run_handlers. same_effects. }
  destruct (match kind with PyStr s => tag_of_string s | _ => None end)
    as [[]|]; simpl; run_handlers; intros H;
    repeat case_match; simplify_eq/=; try congruence;
    try match goal with
        | H : negb ?b = true, H' : ?b = true |- _ =>
            rewrite H' in H; discriminate
        end;
    eexists; same_effects.
Qed.

(** A run of events none of which raises is consumed to its end. *)
Lemma consume_events_returns (evs : list event) :
  Forall (fun ev => failure_of ev = None) evs ->
  forall (st : loop_state) (w : effects),
  exists st' : loop_state,
    consume_events evs st w = (Ok st', after_events evs w).
Proof.
  induction 1 as [|ev evs Hev _ IH]; intros st w; simpl.
  - exists st. now rewrite after_events_nil.
  - unfold bind. destruct (handle_event_returns ev st w Hev) as [st1 ->].
    rewrite (after_events_cons ev evs). apply IH.
Qed.

(** A run that was consumed to its end held no event that raises. *)
Lemma consume_events_ok_inv (evs : list event) :
  forall (st st' : loop_state) (w w' : effects),
    consume_events evs st w = (Ok st', w') ->
    Forall (fun ev => failure_of ev = None) evs.
Proof.
  induction evs as [|ev evs IH]; intros st st' w w' H; [constructor|].
  simpl in H. unfold bind in H.
  destruct (failure_of ev) as [e|] eqn:Hev.
  - now rewrite (handle_event_raises ev e st w Hev) in H.
  - destruct (handle_event ev st w) as [[st1|e] w1]; [|discriminate].
    constructor; [exact Hev | eauto].
Qed.

(** X1. When the loop has consumed its events, it has put on the chat
    exactly the status messages of the action and tool events, in order,
    and nothing for a token or for a finished answer; it has logged
    exactly the records of its events; and it has not touched the file
    system. *)
Theorem loop_shows_status_messages_only
    (evs : list event) (st st' : loop_state) (w w' : effects) :
  consume_events evs st w = (Ok st', w') ->
  ui w' = ui w ++ flat_map status_messages_of evs
  /\ log w' = log w ++ flat_map log_lines_of evs
  /\ fs w' = fs w
  /\ (forall ev : event,
        event_tag ev = Some ModelToken \/ event_tag ev = Some Finished ->
        status_messages_of ev = []).
Proof.
  intros H. pose proof (consume_events_ok_inv _ _ _ _ _ H) as Hok.
  destruct (consume_events_returns evs Hok st w) as [st1 Hrun].
  rewrite Hrun in H. injection H as _ <-. repeat split.
  intros ev [Ht|Ht]; unfold status_messages_of; now rewrite Ht.
Qed.

(** X2. The loop consumes a sequence of events to its end exactly when
    none of them is an event that raises: one of a recognised kind whose
    data is not a dict, or a token whose payload is neither empty nor a
    [str]. *)
Theorem loop_returns_iff_no_event_raises
    (evs : list event) (st : loop_state) (w : effects) :
  (exists (st' : loop_state) (w' : effects),
      consume_events evs st w = (Ok st', w'))
  <-> Forall (fun ev => failure_of ev = None) evs.
Proof.
  split.
  - intros (st' & w' & H). eapply consume_events_ok_inv, H.
  - intros Hok. destruct (consume_events_returns evs Hok st w) as [st' H].
    eauto.
Qed.

(** X3. The loop stops at the first event that raises: it raises that
    event's exception, the events after it are not handled at all, and
    the traces are those of the events before it. *)
Theorem loop_stops_at_first_failure
    (before after : list event) (bad : event) (e : exn)
    (st : loop_state) (w : effects) :
  Forall (fun ev => failure_of ev = None) before ->
  failure_of bad = Some e ->
  consume_events (before ++ bad :: after) st w
  = (Raise e, after_events before w).
Proof.
  intros Hok Hbad. rewrite consume_events_app.
  destruct (consume_events_returns before Hok st w) as [st1 ->].
  simpl. unfold bind. now rewrite (handle_event_raises bad e _ _ Hbad).
Qed.

(** X4. A token event whose data holds no chunk is not skipped: the
    default of the lookup is an empty dict, which has no [content], so
    its text ["{}"] is added to the streamed answer and logged. *)
Theorem token_without_chunk_adds_braces
    (ev : event) (items : pydict) (shown : string)
    (st : loop_state) (w : effects) :
  event_tag ev = Some ModelToken ->
  event_data ev = PyDict items shown ->
  dict_get items "chunk" = None ->
  handle_event ev st w
  = (Ok {| streamed_response := streamed_response st +:+ "{}";
           final_answer := final_answer st |},
     add_log DEBUG (LogStreamChunk "{}") w).
Proof.
  intros Htag Hdata Hchunk. rewrite handle_event_by_tag.
  unfold event_tag in *.
  destruct (event_kind ev) as [kind|]; [|discriminate].
  rewrite Htag, Hdata.
  unfold on_token, data_get, bind, ret, dict_get_default. now rewrite Hchunk.
Qed.

Section MoreServiceProperties.

Variable load_documents :
  loader_kind -> string -> option (list byte) -> outcome (list Document).

Variable astream_events :
  AgentExecutor -> string -> list (string * pyval) -> event_stream.

Variable split_documents : nat -> nat -> list Document -> list Document.

(** ** More on the ad-hoc index builder *)

(** A batch of files that all have a path on disk. *)
Lemma files_with_paths (files : list File) :
  Forall (fun file => str_truthy (file_path file) = true) files ->
  forall f : gmap string (list byte),
    recorded load_documents files f = []
    /\ batch_fs load_documents files f = f
    /\ forallb writable files = true.
Proof.
  induction 1 as [|file files Hfile _ IH]; intros f; simpl; [auto|].
  pose proof (attempt_of_fs load_documents file f) as Hfs.
  rewrite Hfile in Hfs. rewrite Hfs.
  destruct (IH f) as (-> & -> & ->).
  unfold recorded_by, writable. rewrite Hfile.
  now destruct (is_aborted _).
Qed.

(** The same batch, when every loader can be built. *)
Lemma files_with_paths_attempts (files : list File)
    (f : gmap string (list byte)) :
  Forall (fun file => str_truthy (file_path file) = true) files ->
  Forall (fun file =>
            match file_path file with
            | Some path =>
                loader_error (loader_for (file_name file)) path f = None
            | None => True
            end) files ->
  loaded_documents (attempts load_documents files f)
  = flat_map
      (fun file =>
         match file_path file with
         | Some path =>
             match load_documents (loader_for (file_name file)) path
                     (f !! path) with
             | Ok docs => docs
             | Raise _ => []
             end
         | None => []
         end) files.
Proof.
  induction 1 as [|file files Hfile _ IH]; intros Hloaders;
    [reflexivity|].
  apply Forall_cons in Hloaders as [Hloader Hloaders]. simpl.
  unfold attempt_of. rewrite Hfile. unfold str_truthy in Hfile.
  destruct (file_path file) as [path|]; [|discriminate].
  unfold attempt_load. rewrite Hloader.
  unfold loaded_documents in *.
  destruct (load_documents _ _ _); simpl; now rewrite IH.
Qed.

(** X5. When every file of the batch has a path on disk, the builder
    reads the files where they are: it records no temporary file and never
    writes to the file system, whether or not a file also carries its
    content in memory, and the file system at return is the one at the
    call. When moreover every loader can be built on its path, the
    documents collected are those the loaders return, in the order of the
    batch. *)
Theorem files_with_paths_need_no_temporary_file
    (files : list File) (e : OpenAIEmbeddings) (w : effects) :
  Forall (fun file => str_truthy (file_path file) = true) files ->
  let after_loop :=
    snd (load_uploaded_files load_documents files
           ({| documents := []; temp_files_to_delete := [] |}, w)) in
  let at_return :=
    snd (_create_temp_retriever_from_files load_documents split_documents
           files e w) in
  temp_files_to_delete (fst after_loop) = []
  /\ fs (snd after_loop) = fs w
  /\ fs at_return = fs w
  /\ (Forall (fun file =>
                match file_path file with
                | Some path =>
                    loader_error (loader_for (file_name file)) path (fs w)
                    = None
                | None => True
                end) files ->
      documents (fst after_loop)
      = flat_map
          (fun file =>
             match file_path file with
             | Some path =>
                 match load_documents (loader_for (file_name file)) path
                         (fs w !! path) with
                 | Ok docs => docs
                 | Raise _ => []
                 end
             | None => []
             end) files).
Proof.
  intros Hpaths.
  destruct (load_uploaded_files_spec load_documents files
              {| documents := []; temp_files_to_delete := [] |} w)
    as (w1 & -> & _ & Hfs).
  destruct (files_with_paths files Hpaths (fs w)) as (Hc & Hb & Hw).
  simpl. rewrite Hc, Hfs, Hb. repeat split.
  - now apply builder_restores_fs.
  - intros Hloaders. now apply files_with_paths_attempts.
Qed.

(** The loop over files that have neither a path nor content. *)
Lemma load_sourceless_files (files : list File) :
  Forall (fun file =>
            str_truthy (file_path file) = false
            /\ file_content file = None) files ->
  forall (l : builder_locals) (w : effects),
    load_uploaded_files load_documents files (l, w)
    = (Ok tt,
       (l, {| ui := ui w;
              log := log w
                       ++ map (fun file =>
                                 (WARNING,
                                  LogNoPathNoContent (file_name file)))
                              files;
              fs := fs w |})).
Proof.
  induction 1 as [|file files [Hp Hc] _ IH]; intros l w; simpl.
  - destruct w. unfold ret. simpl. now rewrite app_nil_r.
  - unfold bind at 1.
    assert (load_uploaded_file load_documents file (l, w)
            = (Ok tt,
               (l, add_log WARNING (LogNoPathNoContent (file_name file)) w)))
      as ->.
    { unfold load_uploaded_file. rewrite Hp, Hc. reflexivity. }
    rewrite IH. unfold add_log. simpl. now rewrite <- app_assoc.
Qed.

(** X6. A batch whose files have neither a path nor content, the empty
    batch included, makes the builder raise its "no content" error; each
    such file is skipped with a warning in the log only: the user is sent
    nothing about it, and the file system is not touched. *)
Theorem files_without_source_are_skipped_silently
    (files : list File) (e : OpenAIEmbeddings) (w : effects) :
  Forall (fun file =>
            str_truthy (file_path file) = false
            /\ file_content file = None) files ->
  _create_temp_retriever_from_files load_documents split_documents files e w
  = (Raise no_uploaded_content,
     {| ui := ui w;
        log := log w
                 ++ map (fun file =>
                           (WARNING, LogNoPathNoContent (file_name file)))
                        files;
        fs := fs w |}).
Proof.
  intros H. unfold _create_temp_retriever_from_files, with_locals,
    try_finally.
  unfold bind at 1. rewrite (load_sourceless_files files H). reflexivity.
Qed.

(** X14. The result of the builder, case by case: the exception that
    stopped the batch, if the write of a content or the building of a
    loader raised; else the "no content" error when no document was loaded;
    else the error of the vector store when the documents give no chunk;
    else the index of the chunks of the documents loaded. In each case the
    chat has got the reports of the files whose load raised, and nothing
    else. *)
Theorem builder_result_case_by_case
    (files : list File) (e : OpenAIEmbeddings) (w : effects) :
  let batch := attempts load_documents files (fs w) in
  let r := _create_temp_retriever_from_files load_documents split_documents
             files e w in
  fst r
  = match abort_of batch with
    | Some err => Raise err
    | None =>
        match loaded_documents batch with
        | [] => Raise no_uploaded_content
        | docs =>
            match split_documents 1000 100 docs with
            | [] => Raise no_chunk
            | chunks => Ok (FaissRetriever chunks e)
            end
        end
    end
  /\ ui (snd r) = ui w ++ failure_reports batch.
Proof.
  destruct (builder_spec load_documents split_documents files e w)
    as (w2 & -> & Hui & _).
  split; [reflexivity | exact Hui].
Qed.

(** X15. Every temporary file the builder has written and recorded was
    not there before the call, is on disk when the loop over the batch is
    left, and is gone when the call returns, whether it returns an index or
    raises. When every content that has to be written can be, the file
    system at return is the one at the call. *)
Theorem recorded_temporary_files_are_removed
    (files : list File) (e : OpenAIEmbeddings) (w : effects) :
  let after_loop :=
    snd (load_uploaded_files load_documents files
           ({| documents := []; temp_files_to_delete := [] |}, w)) in
  let at_return :=
    snd (_create_temp_retriever_from_files load_documents split_documents
           files e w) in
  temp_files_to_delete (fst after_loop) = recorded load_documents files (fs w)
  /\ (forall p : string,
        p ∈ temp_files_to_delete (fst after_loop) ->
        fs w !! p = None
        /\ is_Some (fs (snd after_loop) !! p)
        /\ fs at_return !! p = None)
  /\ (forallb writable files = true -> fs at_return = fs w).
Proof.
  destruct (load_uploaded_files_spec load_documents files
              {| documents := []; temp_files_to_delete := [] |} w)
    as (w1 & Hloop & _ & Hfs1).
  pose proof (builder_restores_fs load_documents split_documents files e w)
    as Hrestore.
  destruct (builder_spec load_documents split_documents files e w)
    as (w2 & Hcall & _ & Hfs2).
  rewrite Hloop. rewrite Hcall in Hrestore |- *. simpl in Hrestore |- *.
  split; [reflexivity|]. split; [|exact Hrestore].
  intros p Hp. rewrite Hfs1, Hfs2, bool_decide_eq_true_2 by exact Hp.
  eauto using recorded_fresh, batch_fs_recorded.
Qed.

(** ** The preloaded retriever *)

(** The loop over the text files: it never raises, it collects the
    documents of the files that could be read and logs a warning for each
    of the others. *)
Lemma load_text_files_spec (paths : list string) :
  forall (all_docs : list Document) (w : effects),
    load_text_files load_documents paths all_docs w
    = (Ok (all_docs ++ text_documents load_documents paths (fs w)),
       {| ui := ui w;
          log := log w ++ read_warnings load_documents paths (fs w);
          fs := fs w |}).
Proof.
  induction paths as [|path paths IH]; intros all_docs w; simpl.
  - destruct w. unfold ret. simpl. now rewrite !app_nil_r.
  - unfold bind at 1, try_except, new_loader, load_path, bind, ret, logging.
    unfold text_documents, read_warnings in *. simpl.
    destruct (load_documents TextLoader path (fs w !! path)) as [docs|e];
      rewrite IH; simpl; rewrite <- ?app_assoc; reflexivity.
Qed.

(** The whole call, as an equation. *)
Lemma create_rag_retriever_spec
    (data_folder : string) (e : OpenAIEmbeddings) (w : effects) :
  let paths := matching_txt data_folder (fs w) in
  let docs := text_documents load_documents paths (fs w) in
  _create_rag_retriever load_documents split_documents data_folder e w
  = (match paths, docs with
     | [], _ => Raise (no_txt_files data_folder)
     | _ :: _, [] => Raise (no_preloaded_content data_folder)
     | _ :: _, _ :: _ =>
         match split_documents 1000 100 docs with
         | [] => Raise no_chunk
         | chunks => Ok (FaissRetriever chunks e)
         end
     end,
     {| ui := ui w;
        log := log w
                 ++ match paths with
                    | [] => []
                    | _ :: _ =>
                        (INFO, LogLoadingFolder data_folder (length paths))
                          :: read_warnings load_documents paths (fs w)
                    end;
        fs := fs w |}).
Proof.
  intros paths docs. subst paths docs.
  unfold _create_rag_retriever, glob_txt, matching_txt. unfold bind at 1.
  destruct (List.filter _ _) as [|path paths] eqn:Hglob.
  - destruct w. unfold raise. simpl. now rewrite app_nil_r.
  - unfold bind at 1, logging. unfold bind at 1.
    rewrite load_text_files_spec. cbn [app fs ui log add_log length].
    remember (text_documents load_documents (path :: paths) (fs w)) as docs.
    remember (read_warnings load_documents (path :: paths) (fs w)) as warns.
    rewrite <- app_assoc. destruct docs as [|d docs]; [reflexivity|].
    rewrite build_retriever_spec. reflexivity.
Qed.


(** The factory, as an equation on its result. *)
Lemma create_chatbot_service_result (w : effects) :
  let paths := matching_txt RAG_DATA_FOLDER (fs w) in
  let docs := text_documents load_documents paths (fs w) in
  exists w' : effects,
    create_chatbot_service load_documents split_documents w
    = (match paths, docs with
       | [], _ => Ok fresh_service
       | _ :: _, [] => Raise (no_preloaded_content RAG_DATA_FOLDER)
       | _ :: _, _ :: _ =>
           match split_documents 1000 100 docs with
           | [] => Raise no_chunk
           | chunks =>
               Ok (new_ChatbotService (mkChatOpenAI LLM_MODEL_NAME true)
                     mkOpenAIEmbeddings
                     (Some (FaissRetriever chunks mkOpenAIEmbeddings)))
           end
       end, w')
    /\ ui w' = ui w
    /\ fs w' = fs w.
Proof.
  intros paths docs.
  unfold create_chatbot_service, try_except_FileNotFoundError.
  unfold bind at 1. unfold bind at 1.
  rewrite create_rag_retriever_spec. fold paths. fold docs.
  destruct paths as [|path paths];
    [|destruct docs as [|d docs];
      [|destruct (split_documents _ _ _) as [|c chunks]]];
    simpl; eexists; repeat split.
Qed.

(** X8. Starting a chat never raises and sends exactly one message.
    With no matching file, or with documents read that give at least one
    chunk, the service is created (on the index of these chunks in the
    second case), stored in the session, and the greeting is sent; with
    matching files but no document read, or documents that give no chunk,
    the session is left as it was and the message is the initialisation
    error, with the text of the exception. *)
Theorem chat_start_sends_one_message
    (sess : option ChatbotService) (w : effects) :
  let paths := matching_txt RAG_DATA_FOLDER (fs w) in
  let docs := text_documents load_documents paths (fs w) in
  exists (sess' : option ChatbotService) (w' : effects) (text : string),
    start_chat load_documents split_documents sess w = (Ok sess', w')
    /\ ui w' = ui w ++ [UiSend None (PyStr text)]
    /\ fs w' = fs w
    /\ match paths, docs with
       | [], _ => sess' = Some fresh_service /\ text = greeting
       | _ :: _, [] =>
           sess' = sess
           /\ text = "初始化時發生嚴重錯誤，請檢查 Log: "
                       +:+ exn_msg (no_preloaded_content RAG_DATA_FOLDER)
       | _ :: _, _ :: _ =>
           match split_documents 1000 100 docs with
           | [] =>
               sess' = sess
               /\ text = "初始化時發生嚴重錯誤，請檢查 Log: "
                           +:+ exn_msg no_chunk
           | chunks =>
               sess'
               = Some (new_ChatbotService (mkChatOpenAI LLM_MODEL_NAME true)
                         mkOpenAIEmbeddings
                         (Some (FaissRetriever chunks mkOpenAIEmbeddings)))
               /\ text = greeting
           end
       end.
Proof.
  intros paths docs.
  destruct (create_chatbot_service_result w) as (w1 & Hc & Hui & Hfs).
  fold paths in Hc. fold docs in Hc.
  unfold start_chat, try_except. unfold bind at 1. rewrite Hc.
  destruct paths as [|path paths];
    [|destruct docs as [|d docs];
      [|destruct (split_documents _ _ _) as [|c chunks]]];
    simpl; do 3 eexists; (split; [reflexivity|]); simpl;
    rewrite Hui, Hfs; repeat split.
Qed.

(** ** More on a turn *)

(** The tools of a turn, as an equation. *)
Lemma assemble_tools_spec
    (self : ChatbotService) (new_files : option (list File)) (w : effects) :
  let base_tools :=
    match base_retriever self with
    | Some r => [preloaded_tool r]
    | None => []
    end in
  match new_files with
  | Some (file :: files) =>
      let batch := attempts load_documents (file :: files) (fs w) in
      exists w1 : effects,
        assemble_tools load_documents split_documents self new_files w
        = (match abort_of batch with
           | Some err => Raise err
           | None =>
               match loaded_documents batch with
               | [] => Raise no_uploaded_content
               | docs =>
                   match split_documents 1000 100 docs with
                   | [] => Raise no_chunk
                   | chunks =>
                       Ok (base_tools
                             ++ [uploaded_tool
                                   (FaissRetriever chunks (embeddings self))])
                   end
               end
           end, w1)
        /\ (forallb writable (file :: files) = true -> fs w1 = fs w)
  | _ =>
      assemble_tools load_documents split_documents self new_files w
      = (Ok base_tools, w)
  end.
Proof.
  intros base_tools. destruct new_files as [[|file files]|]; try reflexivity.
  intros batch. unfold assemble_tools. fold base_tools.
  unfold bind at 1, logging. unfold bind at 1, send. unfold bind at 1.
  pose proof (builder_restores_fs load_documents split_documents
                (file :: files) (embeddings self)
                (add_ui
                   (UiSend (Some "處理中")
                      (PyStr ("正在為您上傳的 "
                                +:+ pretty (length (file :: files))
                                +:+ " 個檔案建立索引...")))
                   (add_log INFO (LogNewFiles (length (file :: files))) w)))
    as Hfs.
  destruct (builder_spec load_documents split_documents (file :: files)
              (embeddings self)
              (add_ui
                 (UiSend (Some "處理中")
                    (PyStr ("正在為您上傳的 "
                              +:+ pretty (length (file :: files))
                              +:+ " 個檔案建立索引...")))
                 (add_log INFO (LogNewFiles (length (file :: files))) w)))
    as (w2 & Hb & _).
  rewrite Hb in Hfs |- *. simpl in Hfs. cbn [fs add_ui add_log].
  fold batch. exists w2. split; [|exact Hfs].
  destruct (abort_of batch); [reflexivity|].
  destruct (loaded_documents batch); [reflexivity|].
  now destruct (split_documents _ _ _).
Qed.

(** X9. The tools a turn hands to the agent are, in this order, the
    preloaded tool when the service has a retriever, on that retriever,
    and the uploaded tool when files came with the message, on the index
    of the documents loaded from exactly these files; their names are
    distinct. A message without files, or with an empty list of files,
    builds no index and shows nothing. *)
Theorem tools_of_a_turn
    (self : ChatbotService) (new_files : option (list File))
    (w w1 : effects) (tools : list Tool) :
  assemble_tools load_documents split_documents self new_files w
  = (Ok tools, w1) ->
  map tool_name tools = expected_tool_names self new_files
  /\ NoDup (map tool_name tools)
  /\ (forall t : Tool,
        t ∈ tools ->
        tool_name t = "preloaded_document_retriever" ->
        base_retriever self = Some (tool_func t))
  /\ (forall t : Tool,
        t ∈ tools ->
        tool_name t = "uploaded_file_retriever" ->
        exists files : list File,
          new_files = Some files
          /\ tool_func t
             = FaissRetriever
                 (split_documents 1000 100
                    (loaded_documents
                       (attempts load_documents files (fs w))))
                 (embeddings self))
  /\ (new_files = None \/ new_files = Some [] -> w1 = w).
Proof.
  intros H. pose proof (assemble_tools_spec self new_files w) as Hs.
  unfold expected_tool_names.
  destruct new_files as [[|file files]|]; cbv beta zeta iota in Hs.
  - rewrite Hs in H. injection H as <- <-.
    destruct (base_retriever self) as [r|]; simpl; repeat split;
      try (intros; auto; fail).
    + apply NoDup_singleton.
    + intros t Ht _. apply list_elem_of_singleton in Ht. now subst.
    + intros t Ht Hn. apply list_elem_of_singleton in Ht. now subst.
    + apply NoDup_nil_2.
    + intros t Ht. now apply elem_of_nil in Ht.
    + intros t Ht. now apply elem_of_nil in Ht.
  - destruct Hs as (w2 & Hs & _). rewrite Hs in H.
    destruct (abort_of _) as [err|]; [discriminate|].
    destruct (loaded_documents _) as [|d docs] eqn:Hdocs; [discriminate|].
    destruct (split_documents _ _ _) as [|c chunks] eqn:Hchunks;
      [discriminate|].
    injection H as <- <-.
    destruct (base_retriever self) as [r|]; simpl; repeat split.
    + apply NoDup_cons. split; [|apply NoDup_singleton].
      intros Hin. apply list_elem_of_singleton in Hin. discriminate.
    + intros t Ht Hn. apply elem_of_cons in Ht as [->|Ht]; [reflexivity|].
      apply list_elem_of_singleton in Ht. now subst.
    + intros t Ht Hn. apply elem_of_cons in Ht as [->|Ht]; [discriminate|].
      apply list_elem_of_singleton in Ht. subst.
      exists (file :: files). now rewrite Hdocs, Hchunks.
    + intros [?|?]; discriminate.
    + apply NoDup_singleton.
    + intros t Ht Hn. apply list_elem_of_singleton in Ht. now subst.
    + intros t Ht Hn. apply list_elem_of_singleton in Ht. subst.
      exists (file :: files). now rewrite Hdocs, Hchunks.
    + intros [?|?]; discriminate.
  - rewrite Hs in H. injection H as <- <-.
    destruct (base_retriever self) as [r|]; simpl; repeat split;
      try (intros; auto; fail).
    + apply NoDup_singleton.
    + intros t Ht _. apply list_elem_of_singleton in Ht. now subst.
    + intros t Ht Hn. apply list_elem_of_singleton in Ht. now subst.
    + apply NoDup_nil_2.
    + intros t Ht. now apply elem_of_nil in Ht.
    + intros t Ht. now apply elem_of_nil in Ht.
Qed.

Lemma consume_events_fs (evs : list event) :
  forall (st : loop_state) (w : effects),
    fs (snd (consume_events evs st w)) = fs w.
Proof.
  induction evs as [|ev evs IH]; intros st w; simpl; [reflexivity|].
  unfold bind. destruct (failure_of ev) as [e|] eqn:Hev.
  - now rewrite (handle_event_raises ev e st w Hev).
  - destruct (handle_event_returns ev st w Hev) as [st1 ->]. now rewrite IH.
Qed.

Lemma assemble_tools_fs
    (self : ChatbotService) (new_files : option (list File)) (w : effects) :
  all_writable new_files = true ->
  fs (snd (assemble_tools load_documents split_documents self new_files w))
  = fs w.
Proof.
  intros Hw. pose proof (assemble_tools_spec self new_files w) as Hs.
  destruct new_files as [[|file files]|]; cbv beta zeta iota in Hs;
    try now rewrite Hs.
  destruct Hs as (w1 & -> & Hfs). now apply Hfs.
Qed.

Lemma turn_body_fs
    (self : ChatbotService) (user_message : string)
    (new_files : option (list File)) (w : effects) :
  all_writable new_files = true ->
  fs (snd (turn_body load_documents astream_events split_documents self
             user_message new_files w)) = fs w.
Proof.
  intros Hw. unfold turn_body. unfold bind at 1.
  pose proof (assemble_tools_fs self new_files w Hw) as Hfs.
  destruct (assemble_tools _ _ _ _ _) as [[tools|e] w1]; simpl in Hfs;
    [|exact Hfs].
  unfold bind at 1, send. unfold bind at 1, run_stream. unfold bind at 1.
  pose proof (consume_events_fs
                (stream_events
                   (astream_events (_create_agent_executor (llm self) tools)
                      user_message (chat_history self)))
                loop_start (add_ui (UiSend None (PyStr "")) w1)) as Hloop.
  destruct (consume_events _ _ _) as [[st|e] w2]; simpl in Hloop;
    [|simpl; congruence].
  destruct (stream_error _); unfold raise, ret, bind; simpl;
    [congruence|].
  destruct (py_truthy (full_response_of st)); simpl; congruence.
Qed.

Lemma process_message_fs
    (self : ChatbotService) (user_message : string)
    (new_files : option (list File)) (w : effects) :
  all_writable new_files = true ->
  fs (snd (process_message load_documents astream_events split_documents
             self user_message new_files w)) = fs w.
Proof.
  intros Hw. unfold process_message, try_except, bind, logging, ret. simpl.
  pose proof (turn_body_fs self user_message new_files
                (add_log DEBUG (LogUserInput user_message)
                   (add_log DEBUG LogAgentStart w)) Hw) as Hfs.
  destruct (turn_body _ _ _ _ _ _ _) as [[r|e] w1]; simpl in Hfs.
  - now destruct (py_truthy r).
  - rewrite turn_failed_spec. simpl. exact Hfs.
Qed.

(** X10. A session whose uploads can all be written to their temporary
    files leaves no file behind and deletes none: after any sequence of
    turns, with or without uploads, whether they answer or fail, the file
    system is what it was before the first of them. *)
Theorem turns_leave_the_file_system_alone
    (turns : list (string * option (list File))) :
  Forall (fun turn => all_writable (snd turn) = true) turns ->
  forall (self : ChatbotService) (w : effects),
    fs (snd (run_turns load_documents astream_events split_documents self
               turns w)) = fs w.
Proof.
  induction 1 as [|[user_message new_files] rest Hturn _ IH]; intros self w;
    simpl; [reflexivity|].
  unfold bind at 1.
  pose proof (process_message_fs self user_message new_files w Hturn) as Hfs.
  destruct (process_message_spec load_documents astream_events
              split_documents self user_message new_files w)
    as (r & self1 & w1 & Hr & _).
  rewrite Hr in Hfs |- *. simpl in Hfs. cbn [snd fst]. unfold bind at 1.
  pose proof (IH self1 w1) as Hrest.
  destruct (run_turns _ _ _ _ _ _) as [[rs|e] w2]; simpl in Hrest |- *;
    now rewrite Hrest.
Qed.

(** X11. Over any sequence of turns the service keeps its model, its
    embeddings and its preloaded retriever, so an index built for an
    upload does not outlive its turn, and its history only grows: it is
    the history before, followed by the exchange (human, input),
    (ai, answer) of each turn that returned a non-empty answer, in order,
    with the answer exactly as it was returned. *)
Theorem session_history_is_the_exchanges
    (turns : list (string * option (list File))) :
  forall (self : ChatbotService) (w : effects),
  exists (rs : list pyval) (self' : ChatbotService) (w' : effects),
    run_turns load_documents astream_events split_documents self turns w
    = (Ok (rs, self'), w')
    /\ length rs = length turns
    /\ chat_history self' = chat_history self ++ exchanges turns rs
    /\ llm self' = llm self
    /\ embeddings self' = embeddings self
    /\ base_retriever self' = base_retriever self.
Proof.
  induction turns as [|[user_message new_files] rest IH]; intros self w;
    simpl.
  - exists [], self, w. now rewrite app_nil_r.
  - unfold bind at 1.
    destruct (process_message_spec load_documents astream_events
                split_documents self user_message new_files w)
      as (r & self1 & w1 & -> & Hl & He & Hb & Hh).
    cbn [snd fst]. unfold bind at 1.
    destruct (IH self1 w1)
      as (rs & self2 & w2 & -> & Hlen & Hh2 & Hl2 & He2 & Hb2).
    unfold ret. simpl. exists (r :: rs), self2, w2.
    split; [reflexivity|]. split; [simpl; now rewrite Hlen|].
    rewrite Hh2, Hh, Hl2, He2, Hb2. unfold exchange.
    destruct (py_truthy r); simpl; rewrite <- ?app_assoc; auto.
Qed.

(** A turn whose [try] block returns a value has sent it as the answer. *)
Lemma turn_body_closing
    (self : ChatbotService) (user_message : string)
    (new_files : option (list File)) (w w1 : effects) (r : pyval) :
  turn_body load_documents astream_events split_documents self user_message
    new_files w = (Ok r, w1) ->
  py_truthy r = true
  /\ exists w0 : effects, w1 = add_ui UiRemove (add_ui (UiSend None r) w0).
Proof.
  unfold turn_body. unfold bind at 1.
  destruct (assemble_tools _ _ _ _ _) as [[tools|e] w2]; [|discriminate].
  unfold bind at 1, send. unfold bind at 1.
  destruct (run_stream _ _ _) as [[st|e] w3]; [|discriminate].
  unfold bind, ret, raise, remove_msg, update_msg, send.
  destruct (py_truthy (full_response_of st)) eqn:Hr; [|discriminate].
  intros [= <- <-]. eauto.
Qed.

(** X12. Every call of [process_message] returns, and its last step on
    the chat tells how it went: either the answer was sent as a message
    and the placeholder removed, and then the answer is not empty, is the
    value returned and is the last entry of the history; or the result is
    the empty string and the service is as it was, and then the
    placeholder was replaced with the apology, or the error was sent and
    the placeholder removed. *)
Theorem turn_closes_the_chat_as_it_returns
    (self : ChatbotService) (user_message : string)
    (new_files : option (list File)) (w : effects) :
  exists (r : pyval) (self' : ChatbotService) (w' w0 : effects),
    process_message load_documents astream_events split_documents self
      user_message new_files w = (Ok (r, self'), w')
    /\ ((py_truthy r = true
         /\ w' = add_ui UiRemove (add_ui (UiSend None r) w0)
         /\ chat_history self'
            = chat_history self
                ++ [("human", PyStr user_message); ("ai", r)])
        \/ (r = PyStr "" /\ self' = self
            /\ (w' = add_ui (UiUpdate (PyStr apology)) w0
                \/ exists e : exn, w' = after_except e w0))).
Proof.
  unfold process_message, try_except, bind, logging, ret. simpl.
  destruct (turn_body _ _ _ _ _ _ _) as [[r|e] w1] eqn:Hbody.
  - apply turn_body_closing in Hbody as (Hr & w0 & ->).
    rewrite Hr. do 4 eexists. split; [reflexivity|]. left. auto.
  - rewrite turn_failed_spec. simpl. do 4 eexists.
    split; [reflexivity|]. right. eauto.
Qed.

(** X13. The message handler never raises. Without a service in the
    session it only sends the notice that the system is not ready; with
    one it runs the turn and stores the service back with the same
    preloaded retriever and a history that extends the old one. The file
    system is left as it was when there is no service, and when every
    content that has to be written to a temporary file can be. *)
Theorem message_handler_never_raises
    (sess : option ChatbotService) (content : string)
    (elements : list File) (w : effects) :
  exists (sess' : option ChatbotService) (w' : effects),
    on_message load_documents astream_events split_documents sess content
      elements w = (Ok sess', w')
    /\ (sess = None \/ forallb writable elements = true -> fs w' = fs w)
    /\ match sess with
       | None =>
           sess' = None /\ w' = add_ui (UiSend None (PyStr not_ready)) w
       | Some self =>
           exists self' : ChatbotService,
             sess' = Some self'
             /\ base_retriever self' = base_retriever self
             /\ chat_history self `prefix_of` chat_history self'
       end.
Proof.
  destruct sess as [self|]; simpl.
  - unfold bind.
    pose proof (process_message_fs self content (Some elements) w) as Hfs.
    destruct (process_message_spec load_documents astream_events
                split_documents self content (Some elements) w)
      as (r & self' & w' & Hr & _ & _ & Hb & Hh).
    rewrite Hr in Hfs |- *. simpl in Hfs. unfold ret. simpl.
    exists (Some self'), w'. split; [reflexivity|]. split.
    + intros [?|Hw]; [discriminate | now apply Hfs].
    + exists self'. repeat split; [exact Hb|]. rewrite Hh.
      destruct (py_truthy r); [apply prefix_app_r|]; reflexivity.
  - unfold bind, send, ret. simpl. eauto 10.
Qed.

End MoreServiceProperties.

(** ** The further theorems on the sample data *)

Lemma loop_shows_status_messages_only_witness :
  ui (snd (consume_events
             [nameless_tool_event; token_event "po"; finish_event "pong"]
             loop_start no_effects))
  = [UiSend system_author
       (PyStr "&nbsp;&nbsp;⟳ 開始使用工具: `未知工具` 來查找資料。")].
Proof.
  destruct (loop_shows_status_messages_only
              [nameless_tool_event; token_event "po"; finish_event "pong"]
              loop_start
              {| streamed_response := "po"; final_answer := PyStr "pong" |}
              no_effects
              (snd (consume_events
                      [nameless_tool_event; token_event "po";
                       finish_event "pong"] loop_start no_effects)))
    as (Hui & _).
  - reflexivity.
  - rewrite Hui. reflexivity.
Defined.

Lemma loop_stops_at_first_failure_witness :
  consume_events [token_event "po"; blocks_event; finish_event "pong"]
    loop_start no_effects
  = (Raise (cannot_concatenate
              (PyObject "list" [] true "[{'type': 'text'}]")),
     after_events [token_event "po"] no_effects).
Proof.
  apply (loop_stops_at_first_failure [token_event "po"]
           [finish_event "pong"] blocks_event).
  - repeat constructor.
  - reflexivity.
Defined.

Lemma token_without_chunk_adds_braces_witness :
  handle_event chunkless_event loop_start no_effects
  = (Ok {| streamed_response := "{}"; final_answer := PyStr "" |},
     add_log DEBUG (LogStreamChunk "{}") no_effects).
Proof.
  apply (token_without_chunk_adds_braces chunkless_event [] "{}"
           loop_start no_effects); reflexivity.
Defined.

Lemma files_with_paths_need_no_temporary_file_witness :
  temp_files_to_delete
    (fst (snd (load_uploaded_files sample_load [broken_pdf; both_file]
                 ({| documents := []; temp_files_to_delete := [] |},
                  uploads)))) = []
  /\ fs (snd (snd (load_uploaded_files sample_load [broken_pdf; both_file]
                     ({| documents := []; temp_files_to_delete := [] |},
                      uploads)))) = fs uploads
  /\ documents
       (fst (snd (load_uploaded_files sample_load [broken_pdf; both_file]
                    ({| documents := []; temp_files_to_delete := [] |},
                     uploads)))) = [].
Proof.
  destruct (files_with_paths_need_no_temporary_file sample_load sample_split
              [broken_pdf; both_file] mkOpenAIEmbeddings uploads)
    as (Ht & Hfs & _ & Hdocs).
  - repeat constructor.
  - split; [exact Ht|]. split; [exact Hfs|].
    rewrite Hdocs; [reflexivity | repeat constructor].
Defined.

Lemma files_without_source_are_skipped_silently_witness :
  _create_temp_retriever_from_files sample_load sample_split [hollow_file]
    mkOpenAIEmbeddings uploads
  = (Raise no_uploaded_content,
     {| ui := [];
        log := [(WARNING, LogNoPathNoContent "hollow.txt")];
        fs := fs uploads |}).
Proof.
  apply (files_without_source_are_skipped_silently sample_load sample_split
           [hollow_file] mkOpenAIEmbeddings uploads).
  repeat constructor.
Defined.

Lemma tools_of_a_turn_witness :
  map tool_name
    [preloaded_tool
       (FaissRetriever [doc "hi" "rag_data/world.txt"] mkOpenAIEmbeddings);
     uploaded_tool
       (FaissRetriever [doc "hi" (temp_name (fs uploads) ".txt")]
          mkOpenAIEmbeddings)]
  = ["preloaded_document_retriever"; "uploaded_file_retriever"].
Proof.
  destruct (tools_of_a_turn sample_load sample_split loaded_service
              (Some [notes_txt]) uploads
              (snd (assemble_tools sample_load sample_split loaded_service
                      (Some [notes_txt]) uploads))
              [preloaded_tool
                 (FaissRetriever [doc "hi" "rag_data/world.txt"]
                    mkOpenAIEmbeddings);
               uploaded_tool
                 (FaissRetriever [doc "hi" (temp_name (fs uploads) ".txt")]
                    mkOpenAIEmbeddings)])
    as (Hnames & _).
  - vm_compute. reflexivity.
  - exact Hnames.
Defined.

Lemma turns_leave_the_file_system_alone_witness :
  fs (snd (run_turns sample_load sample_agent sample_split fresh_service
             [("ping", Some [notes_txt; broken_pdf]); ("hello", None)]
             uploads))
  = fs uploads.
Proof.
  apply (turns_leave_the_file_system_alone sample_load sample_agent
           sample_split
           [("ping", Some [notes_txt; broken_pdf]); ("hello", None)]).
  repeat constructor.
Defined.

(** The folder with one readable and one unreadable file gives a service
    on the readable one. *)
Example mixed_folder_keeps_the_readable_file :
  fst (create_chatbot_service sample_load sample_split mixed_folder)
  = Ok loaded_service.
Proof. vm_compute. reflexivity. Qed.

(** The folder whose only text file is blank gives one document without
    text, so no chunk: the vector store raises, the service is not created
    and the chat start reports the failure. *)
Example blank_folder_gives_no_chunk :
  fst (create_chatbot_service sample_load sample_split blank_folder)
  = Raise no_chunk
  /\ start_chat sample_load sample_split None blank_folder
     = (Ok None,
        add_ui (UiSend None
                  (PyStr ("初始化時發生嚴重錯誤，請檢查 Log: "
                            +:+ "list index out of range")))
          (add_log ERROR (LogInitError no_chunk)
             (add_log INFO (LogLoadingFolder RAG_DATA_FOLDER 1)
                blank_folder))).
Proof. split; vm_compute; reflexivity. Qed.

(** A turn whose upload holds a [str] fails, and leaves a file behind. *)
Example turn_with_str_upload_leaves_a_file :
  let r := process_message sample_load sample_agent sample_split
             fresh_service "ping" (Some [text_upload]) uploads in
  fst r = Ok (PyStr "", fresh_service)
  /\ fs (snd r) = <[temp_name (fs uploads) ".txt" := []]> (fs uploads).
Proof. split; vm_compute; reflexivity. Qed.
